(** * The lifecycle recorder of the Angular demo application

    A shallow embedding of [LifecycleComponent]
    (angular-lifecycle-app/src/app/lifecycle.component.ts): the component
    class whose lifecycle hooks append timestamped lines to the bounded
    array [logs] and mirror them on the console.

    Conventions of the embedding.
    - A TypeScript [string] is a Rocq [string] (the bytes of its UTF-8
      text).
    - The three private occurrence counters start at 0 and are only ever
      incremented by this class, so they are [nat]; the public [counter]
      is a [Z].  JavaScript numbers are exact on the safe integers (below
      2^53 in absolute value), where [x + 1] is the integer successor and
      [${x}] the decimal numeral; the embedding covers that range.
    - [logs] is the array [this.logs], oldest line first: [push] appends at
      the end, [shift] removes the head.  [console] is the list of lines
      written by [console.log], oldest first.
    - [new Date().toLocaleTimeString()] reads the wall clock.  The clock is
      a parameter [clock]: [clock k] is the text shown by the k-th read,
      and the world counts the reads made so far.
    - A method is a function from the world before the call to its
      outcome: the world after it, together with the returned value or the
      error thrown.  The only expression of the class that can throw is
      [JSON.stringify].
    - The spec's names for the calls: on-create is [constructor],
      on-input-changed [ngOnChanges], on-ready [ngOnInit], on-check
      [ngDoCheck], on-projected-content-ready [ngAfterContentInit],
      on-projected-content-checked [ngAfterContentChecked], on-view-ready
      [ngAfterViewInit], on-view-checked [ngAfterViewChecked], on-destroy
      [ngOnDestroy], and the user-action increment [incrementCounter]. *)

From Stdlib Require Import String Ascii List ZArith Arith Bool Lia.
From Stdlib Require Import DecimalString DecimalPos DecimalZ.
Import ListNotations.

Set Warnings "-register-all".

Open Scope string_scope.
Open Scope list_scope.

Infix "^^" := String.append (at level 60, right associativity).

(** ** JavaScript values, [JSON.stringify] and template literals *)

Module JS.

(** The values a changeset field (typed [any]) may hold: the JSON-like
    values, [undefined] and bigints.  [Number z] is the number with the
    safe integer value [z]; an object lists its own enumerable properties
    in enumeration order.  Functions, symbols, objects with a [toJSON]
    method and cyclic objects are left out. *)
Inductive Value : Type :=
| Undefined
| Null
| Boolean (b : bool)
| Number (z : Z)
| BigInt (z : Z)
| Str (s : string)
| Array (elements : list Value)
| Object (properties : list (string * Value)).

Inductive Error : Type :=
| TypeError (message : string).

(** The completion of an expression: a value, or a thrown error. *)
Inductive Completion (A : Type) : Type :=
| Normal (a : A)
| Throw (e : Error).
Arguments Normal {A} a.
Arguments Throw {A} e.

Definition dquote : string := String (ascii_of_nat 34) EmptyString.
Definition backslash : string := String (ascii_of_nat 92) EmptyString.

Definition hexDigit (n : nat) : ascii :=
  if (n <? 10)%nat then ascii_of_nat (48 + n) else ascii_of_nat (87 + n).

(** One code unit of QuoteJSONString. *)
Definition quoteChar (c : ascii) : string :=
  let n := nat_of_ascii c in
  if (n =? 8)%nat then backslash ^^ "b"
  else if (n =? 9)%nat then backslash ^^ "t"
  else if (n =? 10)%nat then backslash ^^ "n"
  else if (n =? 12)%nat then backslash ^^ "f"
  else if (n =? 13)%nat then backslash ^^ "r"
  else if (n =? 34)%nat then backslash ^^ dquote
  else if (n =? 92)%nat then backslash ^^ backslash
  else if (n <? 32)%nat
       then backslash ^^ "u00"
            ^^ String (hexDigit (n / 16)) (String (hexDigit (n mod 16)) EmptyString)
       else String c EmptyString.

Fixpoint quoteBody (s : string) : string :=
  match s with
  | EmptyString => EmptyString
  | String c rest => quoteChar c ^^ quoteBody rest
  end.

Definition quoteJSONString (s : string) : string :=
  dquote ^^ quoteBody s ^^ dquote.

(** Number::toString on an integer-valued number. *)
Definition numberToString (z : Z) : string :=
  NilZero.string_of_int (Z.to_int z).

Fixpoint join (sep : string) (parts : list string) : string :=
  match parts with
  | [] => EmptyString
  | [p] => p
  | p :: rest => p ^^ sep ^^ join sep rest
  end.

(** [JSON.stringify(v)] with no replacer and no indentation: the result is
    a string or [undefined] ([None]), or a [TypeError] is thrown. *)
Fixpoint stringify (v : Value) : Completion (option string) :=
  match v with
  | Undefined => Normal None
  | Null => Normal (Some "null")
  | Boolean true => Normal (Some "true")
  | Boolean false => Normal (Some "false")
  | Number z => Normal (Some (numberToString z))
  | BigInt _ => Throw (TypeError "Do not know how to serialize a BigInt")
  | Str s => Normal (Some (quoteJSONString s))
  | Array elements =>
      let fix items (l : list Value) : Completion (list string) :=
        match l with
        | [] => Normal []
        | x :: rest =>
            match stringify x with
            | Throw e => Throw e
            | Normal o =>
                match items rest with
                | Throw e => Throw e
                | Normal ss =>
                    Normal (match o with Some s => s | None => "null" end :: ss)
                end
            end
        end in
      match items elements with
      | Throw e => Throw e
      | Normal ss => Normal (Some ("[" ^^ join "," ss ^^ "]"))
      end
  | Object properties =>
      let fix members (l : list (string * Value)) : Completion (list string) :=
        match l with
        | [] => Normal []
        | (key, x) :: rest =>
            match stringify x with
            | Throw e => Throw e
            | Normal o =>
                match members rest with
                | Throw e => Throw e
                | Normal ss =>
                    Normal (match o with
                            | Some s => (quoteJSONString key ^^ ":" ^^ s) :: ss
                            | None => ss
                            end)
                end
            end
        end in
      match members properties with
      | Throw e => Throw e
      | Normal ss => Normal (Some ("{" ^^ join "," ss ^^ "}"))
      end
  end.

(** A substitution [${e}] of a template literal, where [e] is a string or
    [undefined]. *)
Definition interpolate (o : option string) : string :=
  match o with
  | Some s => s
  | None => "undefined"
  end.

(** [${n}] for a number. *)
Definition natToString (n : nat) : string :=
  NilZero.string_of_uint (Nat.to_uint n).

End JS.

(** ** The component and the world it runs in *)

(** The fields of [LifecycleComponent]. *)
Record Component : Type := mkComponent {
  name : string;
  counter : Z;
  logs : list string;
  checkCount : nat;
  contentCheckCount : nat;
  viewCheckCount : nat
}.

(** The component instance together with what its methods reach outside
    of it: the console and the wall clock. *)
Record World : Type := mkWorld {
  this : Component;
  console : list string;
  clockReads : nat
}.

(** Angular's [SimpleChange] and [SimpleChanges].  A changeset lists its
    properties in the order in which [for ... in] enumerates them. *)
Record SimpleChange : Type := mkSimpleChange {
  previousValue : JS.Value;
  currentValue : JS.Value;
  firstChange : bool
}.

Definition SimpleChanges : Type := list (string * SimpleChange).

(** *** Methods as state transformers that may throw *)

Inductive Outcome (A : Type) : Type :=
| Returned (a : A) (w : World)
| Thrown (e : JS.Error) (w : World).
Arguments Returned {A} a w.
Arguments Thrown {A} e w.

Definition Action (A : Type) : Type := World -> Outcome A.

Definition ret {A : Type} (a : A) : Action A := fun w => Returned a w.

Definition bind {A B : Type} (m : Action A) (k : A -> Action B) : Action B :=
  fun w =>
    match m w with
    | Returned a w' => k a w'
    | Thrown e w' => Thrown e w'
    end.

Notation "x <- m ;; k" := (bind m (fun x => k))
  (at level 61, m at next level, right associativity).
Notation "m ;; k" := (bind m (fun _ => k))
  (at level 61, right associativity).

(** The world an outcome leaves behind, and whether it is an exception. *)
Definition after {A : Type} (o : Outcome A) : World :=
  match o with
  | Returned _ w => w
  | Thrown _ w => w
  end.

Definition raises {A : Type} (o : Outcome A) : bool :=
  match o with
  | Returned _ _ => false
  | Thrown _ _ => true
  end.

Definition evaluate {A : Type} (c : JS.Completion A) : Action A :=
  fun w =>
    match c with
    | JS.Normal a => Returned a w
    | JS.Throw e => Thrown e w
    end.

Definition read {A : Type} (field : Component -> A) : Action A :=
  fun w => Returned (field (this w)) w.

Definition update (f : Component -> Component) : Action unit :=
  fun w => Returned tt (mkWorld (f (this w)) (console w) (clockReads w)).

Definition console_log (line : string) : Action unit :=
  fun w => Returned tt (mkWorld (this w) (console w ++ [line]) (clockReads w)).

(** [for (const propName in changes) { body }] *)
Fixpoint forIn (changes : SimpleChanges)
    (body : string -> SimpleChange -> Action unit) : Action unit :=
  match changes with
  | [] => ret tt
  | (propName, change) :: rest => body propName change ;; forIn rest body
  end.

(** Field assignments. *)
Definition set_logs (l : list string) (c : Component) : Component :=
  mkComponent (name c) (counter c) l
    (checkCount c) (contentCheckCount c) (viewCheckCount c).

Definition set_counter (z : Z) (c : Component) : Component :=
  mkComponent (name c) z (logs c)
    (checkCount c) (contentCheckCount c) (viewCheckCount c).

Definition set_checkCount (n : nat) (c : Component) : Component :=
  mkComponent (name c) (counter c) (logs c)
    n (contentCheckCount c) (viewCheckCount c).

Definition set_contentCheckCount (n : nat) (c : Component) : Component :=
  mkComponent (name c) (counter c) (logs c)
    (checkCount c) n (viewCheckCount c).

Definition set_viewCheckCount (n : nat) (c : Component) : Component :=
  mkComponent (name c) (counter c) (logs c)
    (checkCount c) (contentCheckCount c) n.

(** ** The class [LifecycleComponent] *)

Section LifecycleComponent.

(** [clock k]: the text of [new Date().toLocaleTimeString()] at the k-th
    read of the wall clock. *)
Variable clock : nat -> string.

Definition toLocaleTimeString : Action string :=
  fun w =>
    Returned (clock (clockReads w))
             (mkWorld (this w) (console w) (S (clockReads w))).

(** [private addLog(message: string): void] *)
Definition addLog (message : string) : Action unit :=
  timestamp <- toLocaleTimeString ;;
  update (fun c => set_logs (logs c ++ ["[" ^^ timestamp ^^ "] " ^^ message]) c) ;;
  console_log ("[" ^^ timestamp ^^ "] " ^^ message) ;;
  length <- read (fun c => List.length (logs c)) ;;
  if (50 <? length)%nat
  then update (fun c => set_logs (tl (logs c)) c)
  else ret tt.

(** The field initialisers of the class. *)
Definition fields : Component :=
  mkComponent "Default Component" 0%Z [] 0 0 0.

(** [constructor()] *)
Definition constructor : Action unit :=
  update (fun _ => fields) ;;
  addLog "#1. Constructor: Component instance created".

(** [ngOnChanges(changes: SimpleChanges): void] *)
Definition ngOnChanges (changes : SimpleChanges) : Action unit :=
  addLog "#2. ngOnChanges: Input properties changed" ;;
  forIn changes (fun propName change =>
    current <- evaluate (JS.stringify (currentValue change)) ;;
    previous <- evaluate (JS.stringify (previousValue change)) ;;
    addLog ("#2. ngOnChanges: - " ^^ propName ^^ ": "
            ^^ JS.interpolate previous ^^ " → " ^^ JS.interpolate current)).

(** [ngOnInit(): void] *)
Definition ngOnInit : Action unit :=
  addLog "#3. ngOnInit: Component initialized (called once)".

(** [ngDoCheck(): void] *)
Definition ngDoCheck : Action unit :=
  update (fun c => set_checkCount (checkCount c + 1) c) ;;
  n <- read checkCount ;;
  if ((n <=? 5) || (n mod 10 =? 0))%nat
  then addLog ("#4. ngDoCheck: Change detection run #" ^^ JS.natToString n)
  else ret tt.

(** [ngAfterContentInit(): void] *)
Definition ngAfterContentInit : Action unit :=
  addLog "#5. ngAfterContentInit: Content projection initialized (called once)".

(** [ngAfterContentChecked(): void] *)
Definition ngAfterContentChecked : Action unit :=
  update (fun c => set_contentCheckCount (contentCheckCount c + 1) c) ;;
  n <- read contentCheckCount ;;
  if ((n <=? 3) || (n mod 10 =? 0))%nat
  then addLog ("#6. ngAfterContentChecked: Content checked #" ^^ JS.natToString n)
  else ret tt.

(** [ngAfterViewInit(): void] *)
Definition ngAfterViewInit : Action unit :=
  addLog "#7. ngAfterViewInit: View initialized (called once)".

(** [ngAfterViewChecked(): void] *)
Definition ngAfterViewChecked : Action unit :=
  update (fun c => set_viewCheckCount (viewCheckCount c + 1) c) ;;
  n <- read viewCheckCount ;;
  if ((n <=? 3) || (n mod 10 =? 0))%nat
  then addLog ("#8. ngAfterViewChecked: View checked #" ^^ JS.natToString n)
  else ret tt.

(** [ngOnDestroy(): void] *)
Definition ngOnDestroy : Action unit :=
  addLog "#9. ngOnDestroy: Component is being destroyed" ;;
  console_log "#9. ngOnDestroy: Component destroyed - cleanup complete".

(** [incrementCounter(): void] *)
Definition incrementCounter : Action unit :=
  update (fun c => set_counter (counter c + 1)%Z c) ;;
  z <- read counter ;;
  addLog ("User Action: Counter incremented to " ^^ JS.numberToString z).

End LifecycleComponent.

(** ** The host's calls *)

(** The lifecycle notifications of the host framework, one per hook. *)
Inductive Hook : Type :=
| OnChanges (changes : SimpleChanges)
| OnInit
| DoCheck
| AfterContentInit
| AfterContentChecked
| AfterViewInit
| AfterViewChecked
| OnDestroy.

(** What can be called on a constructed instance: a lifecycle hook, or the
    click handler [incrementCounter] of the template's button. *)
Inductive Call : Type :=
| Lifecycle (hook : Hook)
| IncrementCounter.

Coercion Lifecycle : Hook >-> Call.

Definition isDoCheck (c : Call) : bool :=
  match c with Lifecycle DoCheck => true | _ => false end.

Definition isAfterContentChecked (c : Call) : bool :=
  match c with Lifecycle AfterContentChecked => true | _ => false end.

Definition isAfterViewChecked (c : Call) : bool :=
  match c with Lifecycle AfterViewChecked => true | _ => false end.

Definition isOnInit (c : Call) : bool :=
  match c with Lifecycle OnInit => true | _ => false end.

Definition isOnDestroy (c : Call) : bool :=
  match c with Lifecycle OnDestroy => true | _ => false end.

Definition isOnChanges (c : Call) : bool :=
  match c with Lifecycle (OnChanges _) => true | _ => false end.

(** The number of calls of one kind in a sequence of calls. *)
Definition occurrences (kind : Call -> bool) (calls : list Call) : nat :=
  List.length (filter kind calls).

(** ** Observations on worlds *)

(** The last [n] elements of a list, in order. *)
Definition lastn {A : Type} (n : nat) (l : list A) : list A :=
  skipn (List.length l - n) l.

(** The line [ngOnDestroy] writes on the console only. *)
Definition cleanupLine : string :=
  "#9. ngOnDestroy: Component destroyed - cleanup complete".

(** Every line pushed on [logs] is also written on the console by [addLog];
    the console holds nothing else but [cleanupLine].  The console without
    that line is therefore the complete record of what was appended to
    [logs], never truncated. *)
Definition transcript (w : World) : list string :=
  filter (fun line => negb (line =? cleanupLine)%string) (console w).

(** The array is the last 50 lines of the transcript. *)
Definition consistent (w : World) : Prop :=
  logs (this w) = lastn 50 (transcript w).

(** [appends w w' es]: from [w] to [w'] exactly the lines [es] were appended
    to the log, in this order, the array keeping its last 50 lines. *)
Definition appends (w w' : World) (es : list string) : Prop :=
  transcript w' = transcript w ++ es
  /\ logs (this w') = lastn 50 (logs (this w) ++ es).

(** [includes needle s]: [needle] occurs in [s] ([String.prototype.includes]). *)
Fixpoint includes (needle s : string) : bool :=
  String.prefix needle s ||
  match s with
  | EmptyString => false
  | String _ rest => includes needle rest
  end.

(** The truncation step of [addLog] on the array after the push. *)
Definition truncate (l : list string) : list string :=
  if (50 <? List.length l)%nat then tl l else l.

(** The world before any instance exists, and a frozen wall clock for
    concrete runs. *)
Definition boot : World := mkWorld fields [] 0.

Definition noon : nat -> string := fun _ => "12:00:00 PM".

Section Runs.

Variable clock : nat -> string.

(** The line [addLog] builds from [message] at the k-th read of the clock. *)
Definition entry (k : nat) (message : string) : string :=
  "[" ^^ clock k ^^ "] " ^^ message.

(** The world after [addLog] has appended the line [e]. *)
Definition recorded (e : string) (w : World) : World :=
  mkWorld (set_logs (truncate (logs (this w) ++ [e])) (this w))
          (console w ++ [e])
          (S (clockReads w)).

(** The lines of [messages] stamped by consecutive reads of the clock,
    starting with read [k]. *)
Fixpoint stamped (k : nat) (messages : list string) : list string :=
  match messages with
  | [] => []
  | m :: rest => entry k m :: stamped (S k) rest
  end.

Definition dispatch (c : Call) : Action unit :=
  match c with
  | Lifecycle (OnChanges changes) => ngOnChanges clock changes
  | Lifecycle OnInit => ngOnInit clock
  | Lifecycle DoCheck => ngDoCheck clock
  | Lifecycle AfterContentInit => ngAfterContentInit clock
  | Lifecycle AfterContentChecked => ngAfterContentChecked clock
  | Lifecycle AfterViewInit => ngAfterViewInit clock
  | Lifecycle AfterViewChecked => ngAfterViewChecked clock
  | Lifecycle OnDestroy => ngOnDestroy clock
  | IncrementCounter => incrementCounter clock
  end.

(** The host delivers calls one after the other; an exception thrown by a
    hook reaches the host's error handler and the instance lives on. *)
Definition deliver (calls : list Call) (w : World) : World :=
  fold_left (fun w c => after (dispatch c w)) calls w.

(** A freshly constructed instance. *)
Definition created : World := after (constructor clock boot).

(** The number of entries appended by the calls of one kind while [calls]
    are delivered from [w]. *)
Fixpoint appendedBy (kind : Call -> bool) (calls : list Call) (w : World) : nat :=
  match calls with
  | [] => 0
  | c :: rest =>
      let w' := after (dispatch c w) in
      (if kind c
       then List.length (transcript w') - List.length (transcript w)
       else 0)
      + appendedBy kind rest w'
  end.

(** The message of the per-property line of [ngOnChanges], when both values
    serialise. *)
Definition serialised (v : JS.Value) : option string :=
  match JS.stringify v with
  | JS.Normal o => o
  | JS.Throw _ => None
  end.

Definition serialisable (v : JS.Value) : bool :=
  match JS.stringify v with
  | JS.Normal _ => true
  | JS.Throw _ => false
  end.

Definition propertyMessage (p : string * SimpleChange) : string :=
  "#2. ngOnChanges: - " ^^ fst p ^^ ": "
  ^^ JS.interpolate (serialised (previousValue (snd p)))
  ^^ " → " ^^ JS.interpolate (serialised (currentValue (snd p))).

Definition allSerialisable (changes : SimpleChanges) : bool :=
  forallb (fun p => serialisable (currentValue (snd p))
                    && serialisable (previousValue (snd p))) changes.

(** *** A summary of each call

    The effect of a call, spelled out without the monad: the counter it
    bumps, the messages it hands to [addLog] one after the other, and what
    it writes on the console besides.  [dispatch_after] below proves that
    the methods do exactly this. *)

Definition withThis (f : Component -> Component) (w : World) : World :=
  mkWorld (f (this w)) (console w) (clockReads w).

Fixpoint addLogs (messages : list string) (w : World) : World :=
  match messages with
  | [] => w
  | m :: rest => addLogs rest (recorded (entry (clockReads w) m) w)
  end.

(** The per-property messages [ngOnChanges] gets to append: those of the
    properties before the first one with a value [JSON.stringify] rejects. *)
Fixpoint changeMessages (changes : SimpleChanges) : list string :=
  match changes with
  | [] => []
  | p :: rest =>
      if serialisable (currentValue (snd p))
         && serialisable (previousValue (snd p))
      then propertyMessage p :: changeMessages rest
      else []
  end.

Definition sampled (first n : nat) : bool :=
  ((n <=? first) || (n mod 10 =? 0))%nat.

Definition bumped (c : Call) (w : World) : World :=
  match c with
  | Lifecycle DoCheck =>
      withThis (fun t => set_checkCount (checkCount t + 1) t) w
  | Lifecycle AfterContentChecked =>
      withThis (fun t => set_contentCheckCount (contentCheckCount t + 1) t) w
  | Lifecycle AfterViewChecked =>
      withThis (fun t => set_viewCheckCount (viewCheckCount t + 1) t) w
  | IncrementCounter =>
      withThis (fun t => set_counter (counter t + 1)%Z t) w
  | _ => w
  end.

Definition messagesOf (c : Call) (w : World) : list string :=
  match c with
  | Lifecycle (OnChanges changes) =>
      "#2. ngOnChanges: Input properties changed" :: changeMessages changes
  | Lifecycle OnInit =>
      ["#3. ngOnInit: Component initialized (called once)"]
  | Lifecycle DoCheck =>
      let n := checkCount (this w) + 1 in
      if sampled 5 n
      then ["#4. ngDoCheck: Change detection run #" ^^ JS.natToString n]
      else []
  | Lifecycle AfterContentInit =>
      ["#5. ngAfterContentInit: Content projection initialized (called once)"]
  | Lifecycle AfterContentChecked =>
      let n := contentCheckCount (this w) + 1 in
      if sampled 3 n
      then ["#6. ngAfterContentChecked: Content checked #" ^^ JS.natToString n]
      else []
  | Lifecycle AfterViewInit =>
      ["#7. ngAfterViewInit: View initialized (called once)"]
  | Lifecycle AfterViewChecked =>
      let n := viewCheckCount (this w) + 1 in
      if sampled 3 n
      then ["#8. ngAfterViewChecked: View checked #" ^^ JS.natToString n]
      else []
  | Lifecycle OnDestroy =>
      ["#9. ngOnDestroy: Component is being destroyed"]
  | IncrementCounter =>
      ["User Action: Counter incremented to "
       ^^ JS.numberToString (counter (this w) + 1)%Z]
  end.

Definition epilogue (c : Call) : list string :=
  match c with
  | Lifecycle OnDestroy => [cleanupLine]
  | _ => []
  end.

Definition summary (c : Call) (w : World) : World :=
  let w' := addLogs (messagesOf c w) (bumped c w) in
  mkWorld (this w') (console w' ++ epilogue c) (clockReads w').

End Runs.


(** ** Concrete inputs *)

(** The changeset of the single input [name]. *)
Definition nameChange (previous current : JS.Value) : SimpleChanges :=
  [("name", mkSimpleChange previous current false)].

(** The calls of the scenario that follow the construction: one change of
    [name] from "X" to "Y", [ngOnInit], seven [ngDoCheck], [ngOnDestroy]. *)
Definition scenario : list Call :=
  [Lifecycle (OnChanges (nameChange (JS.Str "X") (JS.Str "Y")));
   Lifecycle OnInit;
   Lifecycle DoCheck; Lifecycle DoCheck; Lifecycle DoCheck; Lifecycle DoCheck;
   Lifecycle DoCheck; Lifecycle DoCheck; Lifecycle DoCheck;
   Lifecycle OnDestroy].

(** ** Accounting for whole runs *)

Definition isIncrementCounter (c : Call) : bool :=
  match c with IncrementCounter => true | _ => false end.

(** The number of lines a sampled hook has appended after [n] occurrences,
    when its first [first] occurrences are all logged. *)
Definition quota (first n : nat) : nat := Nat.min n first + n / 10.

(** The number of lines a call appends whatever the state of the instance:
    none for the sampled hooks, whose lines depend on their counters. *)
Definition fixedLines (c : Call) : nat :=
  match c with
  | Lifecycle (OnChanges changes) => 1 + List.length (changeMessages changes)
  | Lifecycle DoCheck => 0
  | Lifecycle AfterContentChecked => 0
  | Lifecycle AfterViewChecked => 0
  | _ => 1
  end.

(** Two instances agree on every field but [logs]. *)
Definition sameFields (t1 t2 : Component) : Prop :=
  set_logs [] t1 = set_logs [] t2.

(** ** The parent component

    [ParentComponent] (angular-lifecycle-app/src/app/parent.component.ts):
    its two fields and its method [toggleComponent], which acts on the
    component and on the console. *)

Module Parent.

Record ParentComponent : Type := mkParentComponent {
  componentName : string;
  showComponent : bool
}.

(** The field initialisers of the class. *)
Definition fields : ParentComponent :=
  mkParentComponent "Lifecycle Demo" true.

(** [toggleComponent(): void] *)
Definition toggleComponent (s : ParentComponent * list string)
    : ParentComponent * list string :=
  let this := mkParentComponent (componentName (fst s))
                                (negb (showComponent (fst s))) in
  (this,
   snd s ++ ["Component "
             ^^ (if showComponent this then "created" else "destroyed")]).

End Parent.

(** ** The unnumbered version of the class

    A second source file of the repository holds the same class with
    messages that lack the [#1.] ... [#9.] numbers (and a template without
    line numbers).  Its fields and its [addLog] are those of the class
    above, so [Component], [World] and [addLog] serve for both. *)

Module Unnumbered.

Section Methods.

Variable clock : nat -> string.

(** [constructor()] *)
Definition constructor : Action unit :=
  update (fun _ => fields) ;;
  addLog clock "Constructor: Component instance created".

(** [ngOnChanges(changes: SimpleChanges): void] *)
Definition ngOnChanges (changes : SimpleChanges) : Action unit :=
  addLog clock "ngOnChanges: Input properties changed" ;;
  forIn changes (fun propName change =>
    current <- evaluate (JS.stringify (currentValue change)) ;;
    previous <- evaluate (JS.stringify (previousValue change)) ;;
    addLog clock ("  - " ^^ propName ^^ ": "
                  ^^ JS.interpolate previous ^^ " → " ^^ JS.interpolate current)).

(** [ngOnInit(): void] *)
Definition ngOnInit : Action unit :=
  addLog clock "ngOnInit: Component initialized (called once)".

(** [ngDoCheck(): void] *)
Definition ngDoCheck : Action unit :=
  update (fun c => set_checkCount (checkCount c + 1) c) ;;
  n <- read checkCount ;;
  if ((n <=? 5) || (n mod 10 =? 0))%nat
  then addLog clock ("ngDoCheck: Change detection run #" ^^ JS.natToString n)
  else ret tt.

(** [ngAfterContentInit(): void] *)
Definition ngAfterContentInit : Action unit :=
  addLog clock "ngAfterContentInit: Content projection initialized (called once)".

(** [ngAfterContentChecked(): void] *)
Definition ngAfterContentChecked : Action unit :=
  update (fun c => set_contentCheckCount (contentCheckCount c + 1) c) ;;
  n <- read contentCheckCount ;;
  if ((n <=? 3) || (n mod 10 =? 0))%nat
  then addLog clock ("ngAfterContentChecked: Content checked #" ^^ JS.natToString n)
  else ret tt.

(** [ngAfterViewInit(): void] *)
Definition ngAfterViewInit : Action unit :=
  addLog clock "ngAfterViewInit: View initialized (called once)".

(** [ngAfterViewChecked(): void] *)
Definition ngAfterViewChecked : Action unit :=
  update (fun c => set_viewCheckCount (viewCheckCount c + 1) c) ;;
  n <- read viewCheckCount ;;
  if ((n <=? 3) || (n mod 10 =? 0))%nat
  then addLog clock ("ngAfterViewChecked: View checked #" ^^ JS.natToString n)
  else ret tt.

(** [ngOnDestroy(): void] *)
Definition ngOnDestroy : Action unit :=
  addLog clock "ngOnDestroy: Component is being destroyed" ;;
  console_log "Component destroyed - cleanup complete".

(** [incrementCounter(): void] *)
Definition incrementCounter : Action unit :=
  update (fun c => set_counter (counter c + 1)%Z c) ;;
  z <- read counter ;;
  addLog clock ("User Action: Counter incremented to " ^^ JS.numberToString z).

Definition dispatch (c : Call) : Action unit :=
  match c with
  | Lifecycle (OnChanges changes) => ngOnChanges changes
  | Lifecycle OnInit => ngOnInit
  | Lifecycle DoCheck => ngDoCheck
  | Lifecycle AfterContentInit => ngAfterContentInit
  | Lifecycle AfterContentChecked => ngAfterContentChecked
  | Lifecycle AfterViewInit => ngAfterViewInit
  | Lifecycle AfterViewChecked => ngAfterViewChecked
  | Lifecycle OnDestroy => ngOnDestroy
  | IncrementCounter => incrementCounter
  end.

Definition deliver (calls : list Call) (w : World) : World :=
  fold_left (fun w c => after (dispatch c w)) calls w.

Definition created : World := after (constructor boot).

End Methods.

End Unnumbered.

(** *** Comparing the two versions *)

Section Versions.

Variable clock : nat -> string.

(** Two lines made by [addLog] at the same read of the clock. *)
Definition sameStamp (line1 line2 : string) : Prop :=
  exists (k : nat) (message1 message2 : string),
    line1 = entry clock k message1 /\ line2 = entry clock k message2.

(** [alike w u]: the two instances agree on every field but [logs], their
    arrays [logs] have the same length and carry the same timestamps line
    by line, and as many lines were written on the console and as many
    reads made of the clock in [w] as in [u]. *)
Definition alike (w u : World) : Prop :=
  sameFields (this w) (this u)
  /\ Forall2 sameStamp (logs (this w)) (logs (this u))
  /\ List.length (console w) = List.length (console u)
  /\ clockReads w = clockReads u.

Definition alikeOutcomes (o1 o2 : Outcome unit) : Prop :=
  raises o1 = raises o2 /\ alike (after o1) (after o2).

End Versions.

(** ** Numbers and JSON values *)

(** [Number.isSafeInteger]: the integers on which [x + 1] is exact and
    [${x}] is the decimal numeral. *)
Definition safeInteger (z : Z) : Prop := (- 2 ^ 53 < z < 2 ^ 53)%Z.

(** The integer a decimal numeral (with an optional minus sign) denotes. *)
Definition readNumber (s : string) : option Z :=
  option_map Z.of_int (NilZero.int_of_string s).


(** * Properties *)

(** ** The bounded queue *)

Lemma lastn_short {A : Type} (n : nat) (l : list A) :
  List.length l <= n -> lastn n l = l.
Proof.
  intros Hle. unfold lastn.
  replace (List.length l - n) with 0 by lia. reflexivity.
Qed.

Lemma length_lastn {A : Type} (n : nat) (l : list A) :
  List.length (lastn n l) = Nat.min n (List.length l).
Proof. unfold lastn. rewrite length_skipn. lia. Qed.

Lemma tl_skipn {A : Type} (k : nat) (l : list A) :
  tl (skipn k l) = skipn (S k) l.
Proof.
  change (tl (skipn k l)) with (skipn 1 (skipn k l)).
  now rewrite skipn_skipn.
Qed.

(** Pushing on the last 50 and truncating gives the last 50 of the longer
    history: the step of the bounded queue. *)
Lemma truncate_lastn_snoc (h : list string) (e : string) :
  truncate (lastn 50 h ++ [e]) = lastn 50 (h ++ [e]).
Proof.
  unfold truncate, lastn.
  rewrite !length_app, length_skipn. cbn [List.length].
  destruct (Nat.le_gt_cases (List.length h) 49) as [Hs | Hl].
  - replace (List.length h - 50) with 0 by lia.
    replace (List.length h + 1 - 50) with 0 by lia.
    cbn [skipn].
    destruct (Nat.ltb_spec 50 (List.length h - 0 + 1)); [lia | reflexivity].
  - destruct (Nat.ltb_spec 50 (List.length h - (List.length h - 50) + 1)); [ | lia].
    replace (List.length h + 1 - 50) with (S (List.length h - 50)) by lia.
    rewrite skipn_app.
    replace (S (List.length h - 50) - List.length h) with 0 by lia.
    change (skipn 0 [e]) with [e]. rewrite <- tl_skipn.
    destruct (skipn (List.length h - 50) h) as [ | x r] eqn:E.
    + apply (f_equal (@List.length string)) in E.
      rewrite length_skipn in E. cbn in E. lia.
    + reflexivity.
Qed.

Lemma truncate_bounded (l : list string) :
  List.length l <= 51 -> List.length (truncate l) <= 50.
Proof.
  unfold truncate. intros Hle.
  destruct (Nat.ltb_spec 50 (List.length l)); [ | lia].
  destruct l; cbn in *; lia.
Qed.

Lemma lastn_lastn_app {A : Type} (n : nat) (l es : list A) :
  lastn n (lastn n l ++ es) = lastn n (l ++ es).
Proof.
  destruct (Nat.le_gt_cases (List.length l) n) as [Hs | Hl].
  - now rewrite (lastn_short n l).
  - unfold lastn. rewrite !length_app, length_skipn, !skipn_app, length_skipn.
    rewrite skipn_skipn. f_equal; f_equal; lia.
Qed.

Lemma snoc_neq {A : Type} (l : list A) (x : A) : l ++ [x] <> l.
Proof.
  intros E. apply (f_equal (@List.length A)) in E.
  rewrite length_app in E. cbn in E. lia.
Qed.

Lemma sampled_spec (first n : nat) :
  sampled first n = true <-> n <= first \/ n mod 10 = 0.
Proof.
  unfold sampled. rewrite orb_true_iff, Nat.leb_le, Nat.eqb_eq. tauto.
Qed.

Lemma sampled_false (first n : nat) :
  sampled first n = false <-> ~ (n <= first \/ n mod 10 = 0).
Proof.
  rewrite <- sampled_spec. destruct (sampled first n); intuition congruence.
Qed.

(** ** What [addLog] does *)

Section Recorder.

Variable clock : nat -> string.

Lemma addLog_eq (message : string) (w : World) :
  addLog clock message w
  = Returned tt (recorded (entry clock (clockReads w) message) w).
Proof.
  unfold addLog, bind, toLocaleTimeString, update, console_log, read, ret,
    recorded, truncate, entry.
  cbn [this console clockReads logs set_logs].
  destruct (50 <? List.length (logs (this w)
              ++ ["[" ^^ clock (clockReads w) ^^ "] " ^^ message]))%nat;
    reflexivity.
Qed.

Lemma entry_not_cleanup (k : nat) (message : string) :
  (entry clock k message =? cleanupLine)%string = false.
Proof. reflexivity. Qed.

Lemma transcript_recorded (k : nat) (message : string) (w : World) :
  transcript (recorded (entry clock k message) w)
  = transcript w ++ [entry clock k message].
Proof.
  unfold transcript. cbn [recorded console].
  rewrite filter_app. cbn [filter].
  now rewrite entry_not_cleanup.
Qed.

End Recorder.

(** ** The methods against their summary *)

Section Summary.

Variable clock : nat -> string.

Lemma forIn_changes (changes : SimpleChanges) (w : World) :
  let body := fun propName change =>
    current <- evaluate (JS.stringify (currentValue change)) ;;
    previous <- evaluate (JS.stringify (previousValue change)) ;;
    addLog clock ("#2. ngOnChanges: - " ^^ propName ^^ ": "
            ^^ JS.interpolate previous ^^ " → " ^^ JS.interpolate current) in
  after (forIn changes body w) = addLogs clock (changeMessages changes) w
  /\ raises (forIn changes body w) = negb (allSerialisable changes).
Proof.
  intros body. revert w.
  induction changes as [ | [propName change] rest IH]; intros w.
  - split; reflexivity.
  - change (allSerialisable ((propName, change) :: rest))
      with (serialisable (currentValue change)
            && serialisable (previousValue change)
            && allSerialisable rest).
    cbn [forIn changeMessages snd fst].
    unfold serialisable, propertyMessage, serialised. cbn [fst snd].
    unfold bind at 1 2. unfold body at 1 3. unfold bind, evaluate.
    destruct (JS.stringify (currentValue change)) as [current | e1];
      [ | split; reflexivity].
    destruct (JS.stringify (previousValue change)) as [previous | e2];
      [ | split; reflexivity].
    rewrite addLog_eq. cbn [andb addLogs]. apply IH.
Qed.

Lemma ngOnChanges_after (changes : SimpleChanges) (w : World) :
  after (ngOnChanges clock changes w)
  = addLogs clock
      ("#2. ngOnChanges: Input properties changed" :: changeMessages changes) w.
Proof.
  unfold ngOnChanges. unfold bind at 1. rewrite addLog_eq.
  cbn [addLogs]. apply forIn_changes.
Qed.

Lemma ngOnChanges_raises (changes : SimpleChanges) (w : World) :
  raises (ngOnChanges clock changes w) = negb (allSerialisable changes).
Proof.
  unfold ngOnChanges. unfold bind at 1. rewrite addLog_eq.
  apply forIn_changes.
Qed.

(** Every call does what its summary says. *)
Lemma dispatch_after (c : Call) (w : World) :
  after (dispatch clock c w) = summary clock c w.
Proof.
  destruct c as [[changes | | | | | | | ] | ]; unfold summary, dispatch.
  - rewrite ngOnChanges_after. cbn [messagesOf bumped epilogue].
    rewrite app_nil_r. now destruct (addLogs _ _ _).
  - unfold ngOnInit. rewrite addLog_eq. cbn. now rewrite app_nil_r.
  - unfold ngDoCheck, bind, update, read. cbn [this messagesOf bumped withThis checkCount set_checkCount].
    fold (sampled 5 (checkCount (this w) + 1)).
    destruct (sampled 5 (checkCount (this w) + 1)).
    + rewrite addLog_eq. cbn. now rewrite app_nil_r.
    + cbn. now rewrite app_nil_r.
  - unfold ngAfterContentInit. rewrite addLog_eq. cbn. now rewrite app_nil_r.
  - unfold ngAfterContentChecked, bind, update, read.
    cbn [this messagesOf bumped withThis contentCheckCount set_contentCheckCount].
    fold (sampled 3 (contentCheckCount (this w) + 1)).
    destruct (sampled 3 (contentCheckCount (this w) + 1)).
    + rewrite addLog_eq. cbn. now rewrite app_nil_r.
    + cbn. now rewrite app_nil_r.
  - unfold ngAfterViewInit. rewrite addLog_eq. cbn. now rewrite app_nil_r.
  - unfold ngAfterViewChecked, bind, update, read.
    cbn [this messagesOf bumped withThis viewCheckCount set_viewCheckCount].
    fold (sampled 3 (viewCheckCount (this w) + 1)).
    destruct (sampled 3 (viewCheckCount (this w) + 1)).
    + rewrite addLog_eq. cbn. now rewrite app_nil_r.
    + cbn. now rewrite app_nil_r.
  - unfold ngOnDestroy, bind. rewrite addLog_eq. reflexivity.
  - unfold incrementCounter, bind, update, read.
    cbn [this counter set_counter]. rewrite addLog_eq. cbn. now rewrite app_nil_r.
Qed.

End Summary.

(** ** Appending several lines *)

Section Appending.

Variable clock : nat -> string.

Lemma outcome_returned (o : Outcome unit) :
  raises o = false -> o = Returned tt (after o).
Proof. destruct o as [[] w | e w]; [reflexivity | discriminate]. Qed.

Lemma dispatch_raises (c : Call) (w : World) :
  raises (dispatch clock c w)
  = match c with
    | Lifecycle (OnChanges changes) => negb (allSerialisable changes)
    | _ => false
    end.
Proof.
  destruct c as [[changes | | | | | | | ] | ]; unfold dispatch.
  - apply ngOnChanges_raises.
  - unfold ngOnInit. now rewrite addLog_eq.
  - unfold ngDoCheck, bind, update, read.
    destruct (_ || _); [now rewrite addLog_eq | reflexivity].
  - unfold ngAfterContentInit. now rewrite addLog_eq.
  - unfold ngAfterContentChecked, bind, update, read.
    destruct (_ || _); [now rewrite addLog_eq | reflexivity].
  - unfold ngAfterViewInit. now rewrite addLog_eq.
  - unfold ngAfterViewChecked, bind, update, read.
    destruct (_ || _); [now rewrite addLog_eq | reflexivity].
  - unfold ngOnDestroy, bind. now rewrite addLog_eq.
  - unfold incrementCounter, bind, update, read. now rewrite addLog_eq.
Qed.

Lemma addLogs_app (ms1 ms2 : list string) (w : World) :
  addLogs clock (ms1 ++ ms2) w = addLogs clock ms2 (addLogs clock ms1 w).
Proof.
  revert w. induction ms1 as [ | m ms1 IH]; intros w; [reflexivity | ].
  cbn [app addLogs]. apply IH.
Qed.

Lemma console_addLogs (ms : list string) (w : World) :
  console (addLogs clock ms w) = console w ++ stamped clock (clockReads w) ms.
Proof.
  revert w. induction ms as [ | m ms IH]; intros w; cbn [addLogs stamped].
  - now rewrite app_nil_r.
  - rewrite IH. cbn [recorded console clockReads].
    now rewrite <- app_assoc.
Qed.

Lemma clockReads_addLogs (ms : list string) (w : World) :
  clockReads (addLogs clock ms w) = clockReads w + List.length ms.
Proof.
  revert w. induction ms as [ | m ms IH]; intros w; cbn [addLogs List.length].
  - lia.
  - rewrite IH. cbn [recorded clockReads]. lia.
Qed.

Lemma transcript_stamped (k : nat) (ms : list string) :
  filter (fun line => negb (line =? cleanupLine)%string) (stamped clock k ms)
  = stamped clock k ms.
Proof.
  revert k. induction ms as [ | m ms IH]; intros k; cbn [stamped filter].
  - reflexivity.
  - rewrite entry_not_cleanup. cbn [negb]. now rewrite IH.
Qed.

Lemma transcript_addLogs (ms : list string) (w : World) :
  transcript (addLogs clock ms w)
  = transcript w ++ stamped clock (clockReads w) ms.
Proof.
  unfold transcript. rewrite console_addLogs, filter_app.
  now rewrite transcript_stamped.
Qed.

(** Whatever was appended before, the array after further appends holds the
    last 50 of everything. *)
Lemma logs_addLogs (ms : list string) (w : World) (h : list string) :
  logs (this w) = lastn 50 h ->
  logs (this (addLogs clock ms w))
  = lastn 50 (h ++ stamped clock (clockReads w) ms).
Proof.
  revert w h. induction ms as [ | m ms IH]; intros w h Hw; cbn [addLogs stamped].
  - now rewrite app_nil_r.
  - rewrite (IH _ (h ++ [entry clock (clockReads w) m])).
    + cbn [recorded clockReads]. now rewrite <- app_assoc.
    + cbn [recorded this set_logs logs]. rewrite Hw.
      apply truncate_lastn_snoc.
Qed.

(** [addLog] touches no field but [logs]. *)
Lemma this_addLogs (ms : list string) (w : World) :
  this (addLogs clock ms w)
  = set_logs (logs (this (addLogs clock ms w))) (this w).
Proof.
  revert w. induction ms as [ | m ms IH]; intros w; cbn [addLogs].
  - now destruct (this w).
  - rewrite IH at 1. reflexivity.
Qed.

Lemma stamped_app (k : nat) (ms1 ms2 : list string) :
  stamped clock k (ms1 ++ ms2)
  = stamped clock k ms1 ++ stamped clock (k + List.length ms1) ms2.
Proof.
  revert k. induction ms1 as [ | m ms1 IH]; intros k; cbn [app stamped List.length].
  - now rewrite Nat.add_0_r.
  - rewrite IH. now rewrite Nat.add_succ_r.
Qed.

Lemma length_stamped (k : nat) (ms : list string) :
  List.length (stamped clock k ms) = List.length ms.
Proof.
  revert k. induction ms as [ | m ms IH]; intros k; cbn [stamped List.length];
    [reflexivity | now rewrite IH].
Qed.

(** *** The observations after one call *)

Lemma logs_bumped (c : Call) (w : World) :
  logs (this (bumped c w)) = logs (this w).
Proof. destruct c as [[changes | | | | | | | ] | ]; reflexivity. Qed.

Lemma console_bumped (c : Call) (w : World) :
  console (bumped c w) = console w.
Proof. destruct c as [[changes | | | | | | | ] | ]; reflexivity. Qed.

Lemma clockReads_bumped (c : Call) (w : World) :
  clockReads (bumped c w) = clockReads w.
Proof. destruct c as [[changes | | | | | | | ] | ]; reflexivity. Qed.

Lemma transcript_dispatch (c : Call) (w : World) :
  transcript (after (dispatch clock c w))
  = transcript w ++ stamped clock (clockReads w) (messagesOf c w).
Proof.
  rewrite dispatch_after. unfold summary, transcript. cbn [console].
  rewrite filter_app, console_addLogs, filter_app, transcript_stamped.
  rewrite console_bumped, clockReads_bumped.
  destruct c as [[changes | | | | | | | ] | ]; cbn; now rewrite app_nil_r.
Qed.

Lemma logs_dispatch (c : Call) (w : World) (h : list string) :
  logs (this w) = lastn 50 h ->
  logs (this (after (dispatch clock c w)))
  = lastn 50 (h ++ stamped clock (clockReads w) (messagesOf c w)).
Proof.
  intros Hw. rewrite dispatch_after. unfold summary. cbn [this].
  rewrite (logs_addLogs _ _ h).
  - now rewrite clockReads_bumped.
  - now rewrite logs_bumped.
Qed.

Lemma consistent_created : consistent (created clock).
Proof. reflexivity. Qed.

Lemma consistent_dispatch (c : Call) (w : World) :
  consistent w -> consistent (after (dispatch clock c w)).
Proof.
  unfold consistent. intros Hw.
  rewrite transcript_dispatch. now apply logs_dispatch.
Qed.

Lemma deliver_snoc (calls : list Call) (c : Call) (w : World) :
  deliver clock (calls ++ [c]) w
  = after (dispatch clock c (deliver clock calls w)).
Proof. unfold deliver. now rewrite fold_left_app. Qed.

Lemma consistent_deliver (calls : list Call) (w : World) :
  consistent w -> consistent (deliver clock calls w).
Proof.
  revert w. induction calls as [ | c calls IH]; intros w Hw; [exact Hw | ].
  cbn [deliver fold_left]. apply IH. now apply consistent_dispatch.
Qed.

End Appending.

(** ** Reachable worlds *)

Section Reachable.

Variable clock : nat -> string.

Lemma appends_dispatch (c : Call) (w : World) :
  consistent w ->
  appends w (after (dispatch clock c w))
    (stamped clock (clockReads w) (messagesOf c w)).
Proof.
  intros Hw. split.
  - apply transcript_dispatch.
  - rewrite (logs_dispatch clock c w (transcript w) Hw).
    rewrite Hw. symmetry. apply lastn_lastn_app.
Qed.

Lemma consistent_reachable (calls : list Call) :
  consistent (deliver clock calls (created clock)).
Proof. apply consistent_deliver, consistent_created. Qed.

Lemma appends_length (w w' : World) (es : list string) :
  appends w w' es ->
  List.length (transcript w') = List.length (transcript w) + List.length es.
Proof. intros [Ht _]. now rewrite Ht, length_app. Qed.

(** *** The occurrence counters *)

Lemma this_dispatch (c : Call) (w : World) :
  this (after (dispatch clock c w))
  = set_logs (logs (this (after (dispatch clock c w)))) (this (bumped c w)).
Proof.
  rewrite dispatch_after. unfold summary. cbn [this]. apply this_addLogs.
Qed.

Lemma counts_deliver (field : Component -> nat) (kind : Call -> bool) :
  (forall c w, field (this (after (dispatch clock c w)))
               = field (this w) + (if kind c then 1 else 0)) ->
  forall calls w,
    field (this (deliver clock calls w))
    = field (this w) + occurrences kind calls.
Proof.
  intros Hstep calls. unfold occurrences.
  induction calls as [ | c calls IH]; intros w; cbn [deliver fold_left filter].
  - cbn. lia.
  - fold (deliver clock calls (after (dispatch clock c w))).
    rewrite IH, Hstep. destruct (kind c); cbn [List.length]; lia.
Qed.

Lemma checkCount_dispatch (c : Call) (w : World) :
  checkCount (this (after (dispatch clock c w)))
  = checkCount (this w) + (if isDoCheck c then 1 else 0).
Proof.
  rewrite this_dispatch.
  destruct c as [[changes | | | | | | | ] | ]; cbn; lia.
Qed.

Lemma contentCheckCount_dispatch (c : Call) (w : World) :
  contentCheckCount (this (after (dispatch clock c w)))
  = contentCheckCount (this w) + (if isAfterContentChecked c then 1 else 0).
Proof.
  rewrite this_dispatch.
  destruct c as [[changes | | | | | | | ] | ]; cbn; lia.
Qed.

Lemma viewCheckCount_dispatch (c : Call) (w : World) :
  viewCheckCount (this (after (dispatch clock c w)))
  = viewCheckCount (this w) + (if isAfterViewChecked c then 1 else 0).
Proof.
  rewrite this_dispatch.
  destruct c as [[changes | | | | | | | ] | ]; cbn; lia.
Qed.

Lemma checkCount_reachable (calls : list Call) :
  checkCount (this (deliver clock calls (created clock)))
  = occurrences isDoCheck calls.
Proof. now rewrite (counts_deliver _ _ checkCount_dispatch). Qed.

Lemma contentCheckCount_reachable (calls : list Call) :
  contentCheckCount (this (deliver clock calls (created clock)))
  = occurrences isAfterContentChecked calls.
Proof. now rewrite (counts_deliver _ _ contentCheckCount_dispatch). Qed.

Lemma viewCheckCount_reachable (calls : list Call) :
  viewCheckCount (this (deliver clock calls (created clock)))
  = occurrences isAfterViewChecked calls.
Proof. now rewrite (counts_deliver _ _ viewCheckCount_dispatch). Qed.

End Reachable.

(** * The recorder's guarantees *)

(** ** The log buffer *)

(** C1.  Whatever calls the host delivers to a constructed instance, the
    array [logs] never holds more than 50 lines, and it holds exactly the
    last (at most 50) of all the lines appended so far, in the order in
    which they were appended.  A further append pushes the new line at the
    end and, when the array is full, drops the oldest line and nothing
    else. *)
Theorem logs_bounded_fifo (clock : nat -> string) (calls : list Call) :
  let w := deliver clock calls (created clock) in
  List.length (logs (this w)) <= 50
  /\ List.length (logs (this w)) = Nat.min 50 (List.length (transcript w))
  /\ logs (this w) = lastn 50 (transcript w)
  /\ forall message : string,
       let e := entry clock (clockReads w) message in
       let w' := after (addLog clock message w) in
       transcript w' = transcript w ++ [e]
       /\ List.length (logs (this w')) <= 50
       /\ logs (this w')
          = if (List.length (logs (this w)) <? 50)%nat
            then logs (this w) ++ [e]
            else tl (logs (this w)) ++ [e].
Proof.
  intros w.
  assert (Hw : consistent w) by apply consistent_reachable.
  assert (Hlen : List.length (logs (this w))
                 = Nat.min 50 (List.length (transcript w))).
  { rewrite Hw. apply length_lastn. }
  split; [lia | ]. split; [exact Hlen | ]. split; [exact Hw | ].
  intros message e w'. subst w'. rewrite addLog_eq.
  cbn [after recorded this logs set_logs]. fold e.
  split; [apply transcript_recorded | ].
  split.
  - apply truncate_bounded. rewrite length_app. cbn [List.length]. lia.
  - unfold truncate. rewrite length_app. cbn [List.length].
    destruct (Nat.ltb_spec (List.length (logs (this w))) 50) as [Hlt | Hge].
    + destruct (Nat.ltb_spec 50 (List.length (logs (this w)) + 1));
        [lia | reflexivity].
    + destruct (Nat.ltb_spec 50 (List.length (logs (this w)) + 1));
        [ | lia].
      destruct (logs (this w)); [cbn in Hge; lia | reflexivity].
Qed.

(** ** Sampling of the check hooks *)

Section Sampling.

Variable clock : nat -> string.

(** One sampled hook: it appends its line exactly when its own occurrence
    number passes the filter, and otherwise leaves array and console as
    they were. *)
Lemma sampled_hook (c : Call) (first n : nat) (label : string) (w : World) :
  consistent w ->
  messagesOf c w = (if sampled first n then [label] else []) ->
  epilogue c = [] ->
  let w' := after (dispatch clock c w) in
  let e := entry clock (clockReads w) label in
  (n <= first \/ n mod 10 = 0 <-> appends w w' [e])
  /\ (~ (n <= first \/ n mod 10 = 0)
      <-> logs (this w') = logs (this w) /\ console w' = console w).
Proof.
  intros Hw Hm Hep w' e.
  pose proof (appends_dispatch clock c w Hw) as Happ.
  assert (Hc : console w'
               = console w ++ stamped clock (clockReads w) (messagesOf c w)).
  { unfold w'. rewrite dispatch_after. unfold summary. cbn [console].
    rewrite Hep, app_nil_r, console_addLogs.
    now rewrite console_bumped, clockReads_bumped. }
  fold w' in Happ. rewrite Hm in Happ, Hc.
  destruct (sampled first n) eqn:Es; cbn [stamped] in Happ, Hc; fold e in Happ, Hc.
  - apply sampled_spec in Es. split; split; try tauto.
    intros [_ Hc']. rewrite Hc' in Hc. symmetry in Hc.
    now apply snoc_neq in Hc.
  - apply sampled_false in Es.
    destruct Happ as [Ht Hl]. rewrite app_nil_r in Ht, Hl, Hc.
    rewrite lastn_short in Hl
      by (unfold consistent in Hw; rewrite Hw, length_lastn; lia).
    split; split; try tauto.
    intros [Ht' _]. rewrite Ht in Ht'. symmetry in Ht'.
    now apply snoc_neq in Ht'.
Qed.

End Sampling.

(** C6.  In any run, with the other calls interleaved at will, the N-th
    [ngDoCheck] (N >= 1) appends its line, numbered N, if and only if
    N <= 5 or N is a multiple of 10; otherwise it leaves [logs] and the
    console as they were. *)
Theorem ngDoCheck_sampling (clock : nat -> string) (calls : list Call) :
  let w := deliver clock calls (created clock) in
  let n := S (occurrences isDoCheck calls) in
  let w' := after (dispatch clock DoCheck w) in
  let e := entry clock (clockReads w)
             ("#4. ngDoCheck: Change detection run #" ^^ JS.natToString n) in
  (n <= 5 \/ n mod 10 = 0 <-> appends w w' [e])
  /\ (~ (n <= 5 \/ n mod 10 = 0)
      <-> logs (this w') = logs (this w) /\ console w' = console w).
Proof.
  intros w n w' e.
  apply (sampled_hook clock DoCheck 5 n).
  - apply consistent_reachable.
  - cbn [messagesOf]. unfold w. rewrite checkCount_reachable.
    now replace (occurrences isDoCheck calls + 1) with n by (unfold n; lia).
  - reflexivity.
Qed.

(** C7.  [ngAfterContentChecked] and [ngAfterViewChecked] each append the
    line of their N-th occurrence if and only if N <= 3 or N is a multiple
    of 10, where N counts the earlier calls of that same hook only: the
    calls of the other hooks, of [ngDoCheck] among them, may be interleaved
    in any way without changing the decision. *)
Theorem content_and_view_checked_sampling
    (clock : nat -> string) (calls : list Call) :
  let w := deliver clock calls (created clock) in
  (let n := S (occurrences isAfterContentChecked calls) in
   let w' := after (dispatch clock AfterContentChecked w) in
   let e := entry clock (clockReads w)
              ("#6. ngAfterContentChecked: Content checked #"
               ^^ JS.natToString n) in
   (n <= 3 \/ n mod 10 = 0 <-> appends w w' [e])
   /\ (~ (n <= 3 \/ n mod 10 = 0)
       <-> logs (this w') = logs (this w) /\ console w' = console w))
  /\
  (let n := S (occurrences isAfterViewChecked calls) in
   let w' := after (dispatch clock AfterViewChecked w) in
   let e := entry clock (clockReads w)
              ("#8. ngAfterViewChecked: View checked #"
               ^^ JS.natToString n) in
   (n <= 3 \/ n mod 10 = 0 <-> appends w w' [e])
   /\ (~ (n <= 3 \/ n mod 10 = 0)
       <-> logs (this w') = logs (this w) /\ console w' = console w)).
Proof.
  intros w. split.
  - intros n w' e.
    apply (sampled_hook clock AfterContentChecked 3 n).
    + apply consistent_reachable.
    + cbn [messagesOf]. unfold w. rewrite contentCheckCount_reachable.
      now replace (occurrences isAfterContentChecked calls + 1) with n
        by (unfold n; lia).
    + reflexivity.
  - intros n w' e.
    apply (sampled_hook clock AfterViewChecked 3 n).
    + apply consistent_reachable.
    + cbn [messagesOf]. unfold w. rewrite viewCheckCount_reachable.
      now replace (occurrences isAfterViewChecked calls + 1) with n
        by (unfold n; lia).
    + reflexivity.
Qed.

(** ** Counting the lines of [ngDoCheck] *)

Lemma quota_step (k : nat) :
  (if sampled 5 (k + 1) then 1 else 0) + (Nat.min k 5 + k / 10)
  = Nat.min (k + 1) 5 + (k + 1) / 10.
Proof.
  destruct (sampled 5 (k + 1)) eqn:Es.
  - apply sampled_spec in Es.
    pose proof (Nat.div_mod_eq k 10). pose proof (Nat.div_mod_eq (k + 1) 10).
    pose proof (Nat.mod_upper_bound k 10). pose proof (Nat.mod_upper_bound (k + 1) 10).
    lia.
  - apply sampled_false in Es.
    pose proof (Nat.div_mod_eq k 10). pose proof (Nat.div_mod_eq (k + 1) 10).
    pose proof (Nat.mod_upper_bound k 10). pose proof (Nat.mod_upper_bound (k + 1) 10).
    lia.
Qed.

Lemma appendedBy_doCheck (clock : nat -> string) (calls : list Call) (w : World) :
  consistent w ->
  appendedBy clock isDoCheck calls w
  + (Nat.min (checkCount (this w)) 5 + checkCount (this w) / 10)
  = Nat.min (checkCount (this w) + occurrences isDoCheck calls) 5
    + (checkCount (this w) + occurrences isDoCheck calls) / 10.
Proof.
  revert w. unfold occurrences.
  induction calls as [ | c calls IH]; intros w Hw; cbn [appendedBy filter].
  - cbn [List.length]. now rewrite Nat.add_0_r.
  - pose proof (consistent_dispatch clock c w Hw) as Hw'.
    specialize (IH _ Hw').
    rewrite checkCount_dispatch in IH.
    rewrite (appends_length _ _ _ (appends_dispatch clock c w Hw)).
    rewrite length_stamped.
    destruct c as [[changes | | | | | | | ] | ];
      cbn [isDoCheck List.length] in *;
      rewrite ?Nat.add_0_r in IH; try (cbn [Nat.add]; exact IH).
    cbn [messagesOf].
    pose proof (quota_step (checkCount (this w))) as Hq.
    replace (checkCount (this w) + S (List.length (filter isDoCheck calls)))
      with (checkCount (this w) + 1 + List.length (filter isDoCheck calls)) by lia.
    destruct (sampled 5 (checkCount (this w) + 1)); cbn [List.length] in *; lia.
Qed.

(** C2, as the code has it.  In any run from a constructed instance that
    contains N calls of [ngDoCheck], interleaved at will with other calls,
    the calls of [ngDoCheck] have appended min(N,5) + floor(N/10) lines:
    one for each of the first five, and one for every tenth call counted
    from the first call (the 10th, 20th, ...). *)
Theorem ngDoCheck_logged_count (clock : nat -> string) (calls : list Call) :
  let n := occurrences isDoCheck calls in
  appendedBy clock isDoCheck calls (created clock) = Nat.min n 5 + n / 10.
Proof.
  intros n.
  pose proof (appendedBy_doCheck clock calls (created clock)
                (consistent_created clock)) as H.
  cbn [created checkCount] in H.
  change (checkCount (this (created clock))) with 0 in H.
  change (Nat.min 0 5 + 0 / 10) with 0 in H.
  cbn [Nat.add] in H. fold n in H. lia.
Qed.

(** C2 as stated fails at N = 10: ten calls of [ngDoCheck] append six
    lines (occurrences 1 to 5 and 10), not 5 + floor((10 - 5) / 10) = 5. *)
Lemma ngDoCheck_logged_count_counterexample :
  occurrences isDoCheck (repeat (Lifecycle DoCheck) 10) = 10
  /\ appendedBy noon isDoCheck (repeat (Lifecycle DoCheck) 10) (created noon)
     <> Nat.min 10 5 + (Nat.max (10 - 5) 0) / 10.
Proof. split; [reflexivity | vm_compute; discriminate]. Qed.

(** ** [ngOnChanges] *)

Lemma changeMessages_all (changes : SimpleChanges) :
  allSerialisable changes = true ->
  changeMessages changes = map propertyMessage changes.
Proof.
  induction changes as [ | p rest IH]; [reflexivity | ].
  change (allSerialisable (p :: rest))
    with (serialisable (currentValue (snd p))
          && serialisable (previousValue (snd p))
          && allSerialisable rest).
  intros H. apply andb_true_iff in H. destruct H as [Hp Hrest].
  cbn [changeMessages map]. rewrite Hp. now rewrite IH.
Qed.

Lemma ngOnChanges_appends (clock : nat -> string)
    (changes : SimpleChanges) (w : World) :
  consistent w ->
  allSerialisable changes = true ->
  let o := dispatch clock (OnChanges changes) w in
  o = Returned tt (after o)
  /\ appends w (after o)
       (stamped clock (clockReads w)
          ("#2. ngOnChanges: Input properties changed"
           :: map propertyMessage changes)).
Proof.
  intros Hw Hs o. split.
  - apply outcome_returned. unfold o. rewrite dispatch_raises.
    now rewrite Hs.
  - pose proof (appends_dispatch clock (OnChanges changes) w Hw) as H.
    cbn [messagesOf] in H. now rewrite changeMessages_all in H.
Qed.

(** C5, as the code has it.  For every changeset whose values
    [JSON.stringify] accepts, [ngOnChanges] returns normally and appends
    first the one summary line and then exactly one line per changed
    property, in the enumeration order of the changeset; each property line
    shows the property name, the previous value and the current value. *)
Theorem ngOnChanges_lines (clock : nat -> string) (calls : list Call)
    (changes : SimpleChanges) :
  allSerialisable changes = true ->
  let w := deliver clock calls (created clock) in
  let o := dispatch clock (OnChanges changes) w in
  o = Returned tt (after o)
  /\ appends w (after o)
       (stamped clock (clockReads w)
          ("#2. ngOnChanges: Input properties changed"
           :: map (fun p =>
                "#2. ngOnChanges: - " ^^ fst p ^^ ": "
                ^^ JS.interpolate (serialised (previousValue (snd p)))
                ^^ " → "
                ^^ JS.interpolate (serialised (currentValue (snd p))))
              changes)).
Proof.
  intros Hs w o.
  apply (ngOnChanges_appends clock changes w); [ | exact Hs].
  apply consistent_reachable.
Qed.

(** The changeset [{name: {previousValue: "A", currentValue: "B"}}] on a
    fresh instance: the summary line, then the property line, which shows
    both values. *)
Lemma ngOnChanges_lines_witness :
  allSerialisable (nameChange (JS.Str "A") (JS.Str "B")) = true
  /\ dispatch noon (OnChanges (nameChange (JS.Str "A") (JS.Str "B")))
       (deliver noon [] (created noon))
     = Returned tt
         (after (dispatch noon (OnChanges (nameChange (JS.Str "A") (JS.Str "B")))
                   (deliver noon [] (created noon))))
  /\ appends (deliver noon [] (created noon))
       (after (dispatch noon (OnChanges (nameChange (JS.Str "A") (JS.Str "B")))
                 (deliver noon [] (created noon))))
       ["[12:00:00 PM] #2. ngOnChanges: Input properties changed";
        "[12:00:00 PM] #2. ngOnChanges: - name: "
        ^^ JS.dquote ^^ "A" ^^ JS.dquote ^^ " → " ^^ JS.dquote ^^ "B" ^^ JS.dquote].
Proof.
  split; [reflexivity | ].
  exact (ngOnChanges_lines noon [] (nameChange (JS.Str "A") (JS.Str "B")) eq_refl).
Defined.

(** C5 as stated fails on that changeset: its property line shows both "A"
    and "B", but it is not appended before the summary line. *)
Lemma ngOnChanges_lines_counterexample :
  includes "A" (entry noon 1
     (propertyMessage ("name", mkSimpleChange (JS.Str "A") (JS.Str "B") false)))
  = true
  /\ includes "B" (entry noon 1
        (propertyMessage ("name", mkSimpleChange (JS.Str "A") (JS.Str "B") false)))
     = true
  /\ ~ appends (created noon)
         (after (dispatch noon (OnChanges (nameChange (JS.Str "A") (JS.Str "B")))
                   (created noon)))
         [entry noon 1
            (propertyMessage ("name", mkSimpleChange (JS.Str "A") (JS.Str "B") false));
          entry noon 2 "#2. ngOnChanges: Input properties changed"].
Proof.
  split; [reflexivity | ]. split; [reflexivity | ].
  intros [Ht _]. vm_compute in Ht. discriminate Ht.
Qed.

(** C9, as the code has it.  For every changeset whose values
    [JSON.stringify] accepts, a property whose previous or current value is
    absent ([undefined]) does not stop [ngOnChanges]: the call returns
    normally, the summary line and the line of every property are appended,
    and the absent value is shown as [undefined] in the line of its
    property. *)
Theorem ngOnChanges_absent_value (clock : nat -> string) (calls : list Call)
    (changes : SimpleChanges) :
  allSerialisable changes = true ->
  let w := deliver clock calls (created clock) in
  let o := dispatch clock (OnChanges changes) w in
  o = Returned tt (after o)
  /\ appends w (after o)
       (stamped clock (clockReads w)
          ("#2. ngOnChanges: Input properties changed"
           :: map propertyMessage changes))
  /\ forall propName change,
       In (propName, change) changes ->
       (previousValue change = JS.Undefined ->
        propertyMessage (propName, change)
        = "#2. ngOnChanges: - " ^^ propName ^^ ": undefined → "
          ^^ JS.interpolate (serialised (currentValue change)))
       /\ (currentValue change = JS.Undefined ->
           propertyMessage (propName, change)
           = "#2. ngOnChanges: - " ^^ propName ^^ ": "
             ^^ JS.interpolate (serialised (previousValue change))
             ^^ " → undefined").
Proof.
  intros Hs w o.
  destruct (ngOnChanges_appends clock changes w
              (consistent_reachable clock calls) Hs) as [Hret Happ].
  split; [exact Hret | ]. split; [exact Happ | ].
  intros propName change _. unfold propertyMessage. cbn [fst snd].
  split; intros ->; reflexivity.
Qed.

Lemma ngOnChanges_absent_value_witness :
  allSerialisable (nameChange JS.Undefined (JS.Str "B")) = true
  /\ appends (deliver noon [] (created noon))
       (after (dispatch noon (OnChanges (nameChange JS.Undefined (JS.Str "B")))
                 (deliver noon [] (created noon))))
       ["[12:00:00 PM] #2. ngOnChanges: Input properties changed";
        "[12:00:00 PM] #2. ngOnChanges: - name: undefined → "
        ^^ JS.dquote ^^ "B" ^^ JS.dquote].
Proof.
  split; [reflexivity | ].
  exact (proj1 (proj2
    (ngOnChanges_absent_value noon [] (nameChange JS.Undefined (JS.Str "B"))
       eq_refl))).
Defined.

(** C9 as stated fails on the changeset
    [{name: {previousValue: undefined, currentValue: "B"}}]: no line of the
    log shows "unknown". *)
Lemma ngOnChanges_absent_value_counterexample :
  ~ exists line : string,
      In line (logs (this (after
        (dispatch noon (OnChanges (nameChange JS.Undefined (JS.Str "B")))
           (created noon)))))
      /\ includes "unknown" line = true.
Proof.
  intros [line [Hin Hinc]]. vm_compute in Hin.
  destruct Hin as [<- | [<- | [<- | []]]]; vm_compute in Hinc; discriminate Hinc.
Qed.

(** A value [JSON.stringify] rejects stops the loop: the summary line and
    the lines of the earlier properties stay, the later properties are not
    reached, and the [TypeError] leaves [ngOnChanges]. *)
Lemma ngOnChanges_bigint :
  dispatch noon
    (OnChanges [("first", mkSimpleChange JS.Undefined (JS.Number 1) true);
                ("second", mkSimpleChange JS.Undefined (JS.BigInt 2) true);
                ("third", mkSimpleChange JS.Undefined (JS.Number 3) true)])
    (created noon)
  = Thrown (JS.TypeError "Do not know how to serialize a BigInt")
      (addLogs noon
         ["#2. ngOnChanges: Input properties changed";
          "#2. ngOnChanges: - first: undefined → 1"]
         (created noon)).
Proof. reflexivity. Qed.

(** ** The scenario *)

(** C8.  Construction, then a change of [name] from "X" to "Y", then
    [ngOnInit], seven [ngDoCheck] and [ngOnDestroy] leave exactly ten lines
    in [logs]: the constructor's line, the two lines of [ngOnChanges],
    the line of [ngOnInit], the lines of the checks 1 to 5 (the checks 6 and
    7 append nothing) and the line of [ngOnDestroy], in this order. *)
Theorem scenario_logs (clock : nat -> string) :
  logs (this (deliver clock scenario (created clock)))
  = [entry clock 0 "#1. Constructor: Component instance created";
     entry clock 1 "#2. ngOnChanges: Input properties changed";
     entry clock 2 ("#2. ngOnChanges: - name: " ^^ JS.dquote ^^ "X" ^^ JS.dquote
                    ^^ " → " ^^ JS.dquote ^^ "Y" ^^ JS.dquote);
     entry clock 3 "#3. ngOnInit: Component initialized (called once)";
     entry clock 4 "#4. ngDoCheck: Change detection run #1";
     entry clock 5 "#4. ngDoCheck: Change detection run #2";
     entry clock 6 "#4. ngDoCheck: Change detection run #3";
     entry clock 7 "#4. ngDoCheck: Change detection run #4";
     entry clock 8 "#4. ngDoCheck: Change detection run #5";
     entry clock 9 "#9. ngOnDestroy: Component is being destroyed"]
  /\ List.length (logs (this (deliver clock scenario (created clock)))) = 10.
Proof. split; reflexivity. Qed.

(** ** No lifecycle window is enforced *)

Section NoWindow.

Variable clock : nat -> string.

(** A hook that calls [addLog] once and does nothing else to the log. *)
Lemma single_line (c : Call) (message : string) (w : World) :
  consistent w ->
  isOnChanges c = false ->
  messagesOf c w = [message] ->
  let o := dispatch clock c w in
  o = Returned tt (after o)
  /\ appends w (after o) [entry clock (clockReads w) message].
Proof.
  intros Hw Hc Hm o. split.
  - apply outcome_returned. unfold o. rewrite dispatch_raises.
    destruct c as [[changes | | | | | | | ] | ]; (reflexivity || discriminate Hc).
  - pose proof (appends_dispatch clock c w Hw) as H.
    now rewrite Hm in H.
Qed.

End NoWindow.

(** C3, as the code has it.  The instance keeps no record of having been
    destroyed, so a call delivered after [ngOnDestroy] is handled like at
    any other time: it appends the lines it always appends, and every call
    but [ngOnChanges] returns normally.  In particular [ngOnInit],
    [ngAfterContentInit], [ngAfterViewInit], a further [ngOnDestroy] and
    [incrementCounter] each append their one line. *)
Theorem calls_after_ngOnDestroy (clock : nat -> string) (calls : list Call) :
  existsb isOnDestroy calls = true ->
  let w := deliver clock calls (created clock) in
  (forall c : Call,
     appends w (after (dispatch clock c w))
       (stamped clock (clockReads w) (messagesOf c w))
     /\ (isOnChanges c = false -> raises (dispatch clock c w) = false))
  /\ appends w (after (dispatch clock OnInit w))
       [entry clock (clockReads w)
          "#3. ngOnInit: Component initialized (called once)"]
  /\ appends w (after (dispatch clock AfterContentInit w))
       [entry clock (clockReads w)
          "#5. ngAfterContentInit: Content projection initialized (called once)"]
  /\ appends w (after (dispatch clock AfterViewInit w))
       [entry clock (clockReads w)
          "#7. ngAfterViewInit: View initialized (called once)"]
  /\ appends w (after (dispatch clock OnDestroy w))
       [entry clock (clockReads w)
          "#9. ngOnDestroy: Component is being destroyed"]
  /\ appends w (after (dispatch clock IncrementCounter w))
       [entry clock (clockReads w)
          ("User Action: Counter incremented to "
           ^^ JS.numberToString (counter (this w) + 1)%Z)].
Proof.
  intros _ w.
  assert (Hw : consistent w) by apply consistent_reachable.
  split.
  - intros c. split.
    + now apply appends_dispatch.
    + intros Hc. rewrite dispatch_raises.
      destruct c as [[changes | | | | | | | ] | ]; (reflexivity || discriminate Hc).
  - repeat match goal with |- _ /\ _ => split end;
      match goal with
      | |- appends _ (after (dispatch _ ?c _)) [entry _ _ ?m] =>
          exact (proj2 (single_line clock c m w Hw eq_refl eq_refl))
      end.
Qed.

Lemma calls_after_ngOnDestroy_witness :
  existsb isOnDestroy [Lifecycle OnDestroy] = true
  /\ appends (deliver noon [Lifecycle OnDestroy] (created noon))
       (after (dispatch noon OnInit
                 (deliver noon [Lifecycle OnDestroy] (created noon))))
       ["[12:00:00 PM] #3. ngOnInit: Component initialized (called once)"].
Proof.
  split; [reflexivity | ].
  exact (proj1 (proj2
    (calls_after_ngOnDestroy noon [Lifecycle OnDestroy] eq_refl))).
Defined.

(** C3 as stated fails: after construction and [ngOnDestroy], the call
    [ngDoCheck] returns normally and [logs] has one more line. *)
Lemma calls_after_ngOnDestroy_counterexample :
  existsb isOnDestroy [Lifecycle OnDestroy] = true
  /\ raises (dispatch noon DoCheck
               (deliver noon [Lifecycle OnDestroy] (created noon))) = false
  /\ logs (this (after (dispatch noon DoCheck
                 (deliver noon [Lifecycle OnDestroy] (created noon)))))
     <> logs (this (deliver noon [Lifecycle OnDestroy] (created noon))).
Proof.
  split; [reflexivity | ]. split; [reflexivity | ].
  intros H. vm_compute in H. discriminate H.
Qed.

(** C4, as the code has it.  [ngOnInit] is not guarded: a call of
    [ngOnInit] on an instance that has already received one returns
    normally and appends its line once more. *)
Theorem ngOnInit_again (clock : nat -> string) (calls : list Call) :
  existsb isOnInit calls = true ->
  let w := deliver clock calls (created clock) in
  let o := dispatch clock OnInit w in
  o = Returned tt (after o)
  /\ appends w (after o)
       [entry clock (clockReads w)
          "#3. ngOnInit: Component initialized (called once)"].
Proof.
  intros _ w.
  apply (single_line clock OnInit); [apply consistent_reachable | | ]; reflexivity.
Qed.

Lemma ngOnInit_again_witness :
  existsb isOnInit [Lifecycle OnInit] = true
  /\ appends (deliver noon [Lifecycle OnInit] (created noon))
       (after (dispatch noon OnInit
                 (deliver noon [Lifecycle OnInit] (created noon))))
       ["[12:00:00 PM] #3. ngOnInit: Component initialized (called once)"].
Proof.
  split; [reflexivity | ].
  exact (proj2 (ngOnInit_again noon [Lifecycle OnInit] eq_refl)).
Defined.

(** C4 as stated fails: the second [ngOnInit] on an instance raises nothing
    and the log holds two lines of [ngOnInit]. *)
Lemma ngOnInit_again_counterexample :
  ~ (raises (dispatch noon OnInit
               (deliver noon [Lifecycle OnInit] (created noon))) = true)
  /\ logs (this (deliver noon [Lifecycle OnInit; Lifecycle OnInit] (created noon)))
     = ["[12:00:00 PM] #1. Constructor: Component instance created";
        "[12:00:00 PM] #3. ngOnInit: Component initialized (called once)";
        "[12:00:00 PM] #3. ngOnInit: Component initialized (called once)"].
Proof.
  split; [ | reflexivity].
  intros Hraises. vm_compute in Hraises. discriminate Hraises.
Qed.

(** ** The observed state *)

Lemma readNumber_numberToString (z : Z) :
  readNumber (JS.numberToString z) = Some z.
Proof.
  unfold readNumber, JS.numberToString.
  rewrite NilZero.isi.
  - cbn [option_map]. now rewrite DecimalZ.of_to.
  - destruct z as [ | p | p]; cbn [Z.to_int]; try discriminate.
    intros E. injection E as E. now apply Unsigned.to_uint_nonnil in E.
  - destruct z as [ | p | p]; cbn [Z.to_int]; try discriminate.
    intros E. injection E as E. now apply Unsigned.to_uint_nonnil in E.
Qed.

(** C10.  The constructor leaves [name] and [counter] at their
    initialisers; no lifecycle hook changes [name] or [counter], whatever
    the state of the instance; and on an instance whose [counter] is a
    safe integer, [incrementCounter] leaves [name], adds exactly 1 to
    [counter] and appends exactly one line, which ends with the decimal
    numeral of the new value of [counter]. *)
Theorem name_and_counter_frame (clock : nat -> string) (w : World) :
  (name (this (after (constructor clock w))) = "Default Component"
   /\ counter (this (after (constructor clock w))) = 0%Z)
  /\ (forall h : Hook,
        name (this (after (dispatch clock h w))) = name (this w)
        /\ counter (this (after (dispatch clock h w))) = counter (this w))
  /\ (safeInteger (counter (this w)) ->
      let o := dispatch clock IncrementCounter w in
      let numeral := JS.numberToString (counter (this (after o))) in
      let e := entry clock (clockReads w)
                 ("User Action: Counter incremented to " ^^ numeral) in
      o = Returned tt (after o)
      /\ name (this (after o)) = name (this w)
      /\ counter (this (after o)) = (counter (this w) + 1)%Z
      /\ readNumber numeral = Some (counter (this w) + 1)%Z
      /\ console (after o) = console w ++ [e]
      /\ logs (this (after o)) = truncate (logs (this w) ++ [e])).
Proof.
  split; [ | split].
  - unfold constructor, bind, update. rewrite addLog_eq. split; reflexivity.
  - intros h. rewrite this_dispatch.
    destruct h; split; reflexivity.
  - intros _ o.
    assert (Ho : o = Returned tt
                   (recorded
                      (entry clock (clockReads w)
                         ("User Action: Counter incremented to "
                          ^^ JS.numberToString (counter (this w) + 1)%Z))
                      (bumped IncrementCounter w))).
    { unfold o, dispatch, incrementCounter, bind, update, read.
      cbn [this counter set_counter]. now rewrite addLog_eq. }
    rewrite Ho. cbn [after].
    cbn [recorded this bumped withThis set_logs set_counter counter].
    repeat match goal with |- _ /\ _ => split end;
      try reflexivity.
    apply readNumber_numberToString.
Qed.

(** On a fresh instance, whose [counter] is 0, [incrementCounter] sets
    [counter] to 1 and appends the line that ends with "1". *)
Lemma name_and_counter_frame_witness :
  safeInteger (counter (this (created noon)))
  /\ dispatch noon IncrementCounter (created noon)
     = Returned tt (after (dispatch noon IncrementCounter (created noon)))
  /\ name (this (after (dispatch noon IncrementCounter (created noon))))
     = "Default Component"
  /\ counter (this (after (dispatch noon IncrementCounter (created noon))))
     = 1%Z
  /\ readNumber "1" = Some 1%Z
  /\ console (after (dispatch noon IncrementCounter (created noon)))
     = ["[12:00:00 PM] #1. Constructor: Component instance created";
        "[12:00:00 PM] User Action: Counter incremented to 1"]
  /\ logs (this (after (dispatch noon IncrementCounter (created noon))))
     = ["[12:00:00 PM] #1. Constructor: Component instance created";
        "[12:00:00 PM] User Action: Counter incremented to 1"].
Proof.
  assert (Hsafe : safeInteger (counter (this (created noon)))).
  { unfold safeInteger. cbn. lia. }
  split; [exact Hsafe | ].
  exact (proj2 (proj2 (name_and_counter_frame noon (created noon))) Hsafe).
Defined.

(** * Further properties of the recorder *)

(** ** Exceptions *)

(** X1.  Whatever the state of the instance, a call throws if and only if
    it is [ngOnChanges] with a changeset holding a value that
    [JSON.stringify] rejects; no other method ever throws. *)
Theorem only_ngOnChanges_throws (clock : nat -> string) (c : Call) (w : World) :
  raises (dispatch clock c w) = true
  <-> exists changes : SimpleChanges,
        c = Lifecycle (OnChanges changes) /\ allSerialisable changes = false.
Proof.
  rewrite dispatch_raises. split.
  - destruct c as [[changes | | | | | | | ] | ]; try discriminate.
    intros H. exists changes. split; [reflexivity | ].
    now destruct (allSerialisable changes).
  - intros [changes [-> H]]. now rewrite H.
Qed.

Lemma changeMessages_stop (good rest : SimpleChanges) (bad : string * SimpleChange) :
  allSerialisable good = true ->
  serialisable (currentValue (snd bad))
  && serialisable (previousValue (snd bad)) = false ->
  changeMessages (good ++ bad :: rest) = map propertyMessage good
  /\ allSerialisable (good ++ bad :: rest) = false.
Proof.
  intros Hgood Hbad. induction good as [ | p good IH].
  - cbn [app changeMessages map]. rewrite Hbad. split; [reflexivity | ].
    unfold allSerialisable. cbn [forallb]. now rewrite Hbad.
  - change (allSerialisable (p :: good))
      with (serialisable (currentValue (snd p))
            && serialisable (previousValue (snd p))
            && allSerialisable good) in Hgood.
    apply andb_true_iff in Hgood. destruct Hgood as [Hp Hgood].
    destruct (IH Hgood) as [IH1 IH2].
    cbn [app changeMessages map]. rewrite Hp, IH1. split; [reflexivity | ].
    change (allSerialisable (p :: good ++ bad :: rest))
      with (serialisable (currentValue (snd p))
            && serialisable (previousValue (snd p))
            && allSerialisable (good ++ bad :: rest)).
    rewrite IH2. apply andb_false_r.
Qed.

(** X2.  When the changeset holds a value that [JSON.stringify] rejects,
    [ngOnChanges] throws at the first such property: the summary line and
    the lines of the properties enumerated before it are appended, the
    later properties get no line, and no field but [logs] has changed. *)
Theorem ngOnChanges_stops_at_rejected_value
    (clock : nat -> string) (calls : list Call)
    (good rest : SimpleChanges) (bad : string * SimpleChange) :
  allSerialisable good = true ->
  serialisable (currentValue (snd bad))
  && serialisable (previousValue (snd bad)) = false ->
  let w := deliver clock calls (created clock) in
  let o := dispatch clock (OnChanges (good ++ bad :: rest)) w in
  raises o = true
  /\ appends w (after o)
       (stamped clock (clockReads w)
          ("#2. ngOnChanges: Input properties changed"
           :: map propertyMessage good))
  /\ this (after o) = set_logs (logs (this (after o))) (this w).
Proof.
  intros Hgood Hbad w o.
  destruct (changeMessages_stop good rest bad Hgood Hbad) as [Hm Hs].
  split; [ | split].
  - unfold o. rewrite dispatch_raises. now rewrite Hs.
  - pose proof (appends_dispatch clock (OnChanges (good ++ bad :: rest)) w
                  (consistent_reachable clock calls)) as H.
    cbn [messagesOf] in H. now rewrite Hm in H.
  - unfold o. now rewrite this_dispatch.
Qed.

Lemma ngOnChanges_stops_at_rejected_value_witness :
  allSerialisable [("first", mkSimpleChange JS.Undefined (JS.Number 1) true)]
  = true
  /\ serialisable
       (currentValue (snd ("second", mkSimpleChange JS.Undefined (JS.BigInt 2) true)))
     && serialisable
          (previousValue (snd ("second", mkSimpleChange JS.Undefined (JS.BigInt 2) true)))
     = false
  /\ appends (deliver noon [] (created noon))
       (after (dispatch noon
          (OnChanges ([("first", mkSimpleChange JS.Undefined (JS.Number 1) true)]
                      ++ ("second", mkSimpleChange JS.Undefined (JS.BigInt 2) true)
                      :: [("third", mkSimpleChange JS.Undefined (JS.Number 3) true)]))
          (deliver noon [] (created noon))))
       ["[12:00:00 PM] #2. ngOnChanges: Input properties changed";
        "[12:00:00 PM] #2. ngOnChanges: - first: undefined → 1"].
Proof.
  split; [reflexivity | ]. split; [reflexivity | ].
  exact (proj1 (proj2
    (ngOnChanges_stops_at_rejected_value noon []
       [("first", mkSimpleChange JS.Undefined (JS.Number 1) true)]
       [("third", mkSimpleChange JS.Undefined (JS.Number 3) true)]
       ("second", mkSimpleChange JS.Undefined (JS.BigInt 2) true)
       eq_refl eq_refl))).
Defined.

(** ** How values are shown *)





(** ** Whole runs *)

Lemma In_lastn {A : Type} (n : nat) (l : list A) (x : A) :
  In x (lastn n l) -> In x l.
Proof.
  unfold lastn. intros H.
  rewrite <- (firstn_skipn (List.length l - n) l).
  apply in_or_app. now right.
Qed.

Lemma quota_succ (first k : nat) :
  first < 10 ->
  (if sampled first (k + 1) then 1 else 0) + quota first k
  = quota first (k + 1).
Proof.
  intros Hf. unfold quota.
  pose proof (Nat.div_mod_eq k 10). pose proof (Nat.div_mod_eq (k + 1) 10).
  pose proof (Nat.mod_upper_bound k 10). pose proof (Nat.mod_upper_bound (k + 1) 10).
  destruct (sampled first (k + 1)) eqn:Es.
  - apply sampled_spec in Es. lia.
  - apply sampled_false in Es. lia.
Qed.

Lemma occurrences_snoc (kind : Call -> bool) (calls : list Call) (c : Call) :
  occurrences kind (calls ++ [c])
  = occurrences kind calls + (if kind c then 1 else 0).
Proof.
  unfold occurrences. rewrite filter_app, length_app. cbn [filter].
  now destruct (kind c).
Qed.

Section WholeRuns.

Variable clock : nat -> string.

Lemma console_dispatch (c : Call) (w : World) :
  console (after (dispatch clock c w))
  = console w ++ stamped clock (clockReads w) (messagesOf c w) ++ epilogue c.
Proof.
  rewrite dispatch_after. unfold summary. cbn [console].
  rewrite console_addLogs, console_bumped, clockReads_bumped.
  now rewrite app_assoc.
Qed.

Lemma clockReads_dispatch (c : Call) (w : World) :
  clockReads (after (dispatch clock c w))
  = clockReads w + List.length (messagesOf c w).
Proof.
  rewrite dispatch_after. unfold summary. cbn [clockReads].
  now rewrite clockReads_addLogs, clockReads_bumped.
Qed.

Lemma count_cleanup_stamped (k : nat) (ms : list string) :
  count_occ string_dec (stamped clock k ms) cleanupLine = 0.
Proof.
  revert k. induction ms as [ | m ms IH]; intros k; [reflexivity | ].
  cbn [stamped]. rewrite count_occ_cons_neq; [apply IH | ].
  intros E. pose proof (entry_not_cleanup clock k m) as H.
  rewrite E in H. now rewrite String.eqb_refl in H.
Qed.

Lemma cleanup_lines_deliver (calls : list Call) (w : World) :
  count_occ string_dec (console (deliver clock calls w)) cleanupLine
  = count_occ string_dec (console w) cleanupLine
    + occurrences isOnDestroy calls.
Proof.
  revert w. unfold occurrences.
  induction calls as [ | c calls IH]; intros w; cbn [deliver fold_left filter].
  - cbn. lia.
  - fold (deliver clock calls (after (dispatch clock c w))).
    rewrite IH, console_dispatch, !count_occ_app, count_cleanup_stamped.
    destruct c as [[changes | | | | | | | ] | ]; cbn; lia.
Qed.

Lemma clockReads_deliver (calls : list Call) (w : World) :
  clockReads w = List.length (transcript w) ->
  clockReads (deliver clock calls w)
  = List.length (transcript (deliver clock calls w)).
Proof.
  revert w. induction calls as [ | c calls IH]; intros w Hw; [exact Hw | ].
  cbn [deliver fold_left]. apply IH.
  rewrite clockReads_dispatch, transcript_dispatch, length_app, length_stamped.
  lia.
Qed.

Lemma counter_dispatch (c : Call) (w : World) :
  counter (this (after (dispatch clock c w)))
  = (counter (this w) + (if isIncrementCounter c then 1 else 0))%Z
  /\ name (this (after (dispatch clock c w))) = name (this w).
Proof.
  rewrite this_dispatch.
  destruct c as [[changes | | | | | | | ] | ]; cbn; split; (reflexivity || lia).
Qed.

Lemma counter_deliver (calls : list Call) (w : World) :
  counter (this (deliver clock calls w))
  = (counter (this w) + Z.of_nat (occurrences isIncrementCounter calls))%Z
  /\ name (this (deliver clock calls w)) = name (this w).
Proof.
  revert w. unfold occurrences.
  induction calls as [ | c calls IH]; intros w; cbn [deliver fold_left filter].
  - cbn. split; [lia | reflexivity].
  - fold (deliver clock calls (after (dispatch clock c w))).
    destruct (IH (after (dispatch clock c w))) as [IHc IHn].
    destruct (counter_dispatch c w) as [Hc Hn].
    rewrite IHc, IHn, Hc, Hn.
    split; [ | reflexivity].
    destruct (isIncrementCounter c); cbn [List.length]; lia.
Qed.

End WholeRuns.

(** X4.  In every run the console holds the cleanup line of [ngOnDestroy]
    exactly once per call of [ngOnDestroy], while [logs] never holds it;
    every line of [logs] is on the console; and the wall clock has been
    read exactly once per line appended. *)
Theorem console_mirrors_logs (clock : nat -> string) (calls : list Call) :
  let w := deliver clock calls (created clock) in
  count_occ string_dec (console w) cleanupLine = occurrences isOnDestroy calls
  /\ ~ In cleanupLine (logs (this w))
  /\ (forall line : string, In line (logs (this w)) -> In line (console w))
  /\ clockReads w = List.length (transcript w).
Proof.
  intros w.
  assert (Hw : consistent w) by apply consistent_reachable.
  assert (Hsub : forall line, In line (logs (this w)) ->
                   In line (console w) /\ line <> cleanupLine).
  { intros line Hin. rewrite Hw in Hin. apply In_lastn in Hin.
    unfold transcript in Hin. apply filter_In in Hin.
    destruct Hin as [Hin Hne]. split; [exact Hin | ].
    intros ->. now rewrite String.eqb_refl in Hne. }
  split; [ | split; [ | split]].
  - unfold w. now rewrite cleanup_lines_deliver.
  - intros Hin. now destruct (Hsub _ Hin).
  - intros line Hin. now destruct (Hsub _ Hin).
  - apply clockReads_deliver. reflexivity.
Qed.

(** X5.  In every run [counter] is the number of calls of
    [incrementCounter] delivered so far: no other call changes it. *)
Theorem counter_counts_increments (clock : nat -> string) (calls : list Call) :
  counter (this (deliver clock calls (created clock)))
  = Z.of_nat (occurrences isIncrementCounter calls).
Proof.
  now destruct (counter_deliver clock calls (created clock)) as [-> _].
Qed.

(** *** Line counts *)

Section LineCounts.

Variable clock : nat -> string.

Lemma appendedBy_sampled (kind : Call -> bool) (field : Component -> nat)
    (first : nat) :
  first < 10 ->
  (forall c w, field (this (after (dispatch clock c w)))
               = field (this w) + (if kind c then 1 else 0)) ->
  (forall c w, kind c = true ->
               List.length (messagesOf c w)
               = if sampled first (field (this w) + 1) then 1 else 0) ->
  forall calls w,
    appendedBy clock kind calls w + quota first (field (this w))
    = quota first (field (this w) + occurrences kind calls).
Proof.
  intros Hf Hfield Hmsg calls. unfold occurrences.
  induction calls as [ | c calls IH]; intros w; cbn [appendedBy filter].
  - cbn [List.length]. now rewrite Nat.add_0_r.
  - specialize (IH (after (dispatch clock c w))).
    rewrite Hfield in IH.
    rewrite transcript_dispatch, length_app, length_stamped.
    destruct (kind c) eqn:Ek; cbn [List.length].
    + rewrite (Hmsg c w Ek).
      pose proof (quota_succ first (field (this w)) Hf) as Hq.
      replace (field (this w) + S (List.length (filter kind calls)))
        with (field (this w) + 1 + List.length (filter kind calls)) by lia.
      lia.
    + rewrite Nat.add_0_r in IH. cbn [Nat.add]. exact IH.
Qed.

Lemma length_messagesOf_reachable (calls : list Call) (c : Call) :
  let w := deliver clock calls (created clock) in
  List.length (messagesOf c w)
  + (quota 5 (occurrences isDoCheck calls)
     + quota 3 (occurrences isAfterContentChecked calls)
     + quota 3 (occurrences isAfterViewChecked calls))
  = fixedLines c
    + (quota 5 (occurrences isDoCheck (calls ++ [c]))
       + quota 3 (occurrences isAfterContentChecked (calls ++ [c]))
       + quota 3 (occurrences isAfterViewChecked (calls ++ [c]))).
Proof.
  intros w. rewrite !occurrences_snoc.
  pose proof (quota_succ 5 (occurrences isDoCheck calls)) as H5.
  pose proof (quota_succ 3 (occurrences isAfterContentChecked calls)) as H3c.
  pose proof (quota_succ 3 (occurrences isAfterViewChecked calls)) as H3v.
  destruct c as [[changes | | | | | | | ] | ];
    cbn [messagesOf fixedLines isDoCheck isAfterContentChecked
         isAfterViewChecked List.length];
    rewrite ?Nat.add_0_r; try lia.
  - unfold w. rewrite checkCount_reachable.
    destruct (sampled 5 (occurrences isDoCheck calls + 1));
      cbn [List.length]; lia.
  - unfold w. rewrite contentCheckCount_reachable.
    destruct (sampled 3 (occurrences isAfterContentChecked calls + 1));
      cbn [List.length]; lia.
  - unfold w. rewrite viewCheckCount_reachable.
    destruct (sampled 3 (occurrences isAfterViewChecked calls + 1));
      cbn [List.length]; lia.
Qed.

End LineCounts.

(** X6.  In any run that contains N calls of [ngAfterContentChecked],
    these calls have appended min(N,3) + floor(N/10) lines, and likewise
    for [ngAfterViewChecked], whatever other calls are interleaved. *)
Theorem content_and_view_checked_logged_count
    (clock : nat -> string) (calls : list Call) :
  appendedBy clock isAfterContentChecked calls (created clock)
  = Nat.min (occurrences isAfterContentChecked calls) 3
    + occurrences isAfterContentChecked calls / 10
  /\ appendedBy clock isAfterViewChecked calls (created clock)
     = Nat.min (occurrences isAfterViewChecked calls) 3
       + occurrences isAfterViewChecked calls / 10.
Proof.
  split.
  - pose proof (appendedBy_sampled clock isAfterContentChecked
                  contentCheckCount 3 ltac:(lia)
                  (contentCheckCount_dispatch clock)) as H.
    specialize (H ltac:(intros [[changes | | | | | | | ] | ] w Hk;
                        try discriminate Hk; cbn [messagesOf];
                        now destruct (sampled 3 _))).
    specialize (H calls (created clock)).
    change (contentCheckCount (this (created clock))) with 0 in H.
    unfold quota in H. cbn [Nat.add] in H.
    change (Nat.min 0 3 + 0 / 10) with 0 in H. lia.
  - pose proof (appendedBy_sampled clock isAfterViewChecked
                  viewCheckCount 3 ltac:(lia)
                  (viewCheckCount_dispatch clock)) as H.
    specialize (H ltac:(intros [[changes | | | | | | | ] | ] w Hk;
                        try discriminate Hk; cbn [messagesOf];
                        now destruct (sampled 3 _))).
    specialize (H calls (created clock)).
    change (viewCheckCount (this (created clock))) with 0 in H.
    unfold quota in H. cbn [Nat.add] in H.
    change (Nat.min 0 3 + 0 / 10) with 0 in H. lia.
Qed.

(** X7.  The number of lines appended in a run is determined by the calls
    alone: one line for the constructor, one for every call of [ngOnInit],
    [ngAfterContentInit], [ngAfterViewInit], [ngOnDestroy] and
    [incrementCounter], for every [ngOnChanges] its summary line and the
    lines of the properties it gets to, and for the three sampled hooks
    the quota of their numbers of calls.  [logs] holds that many lines, up
    to 50. *)
Theorem lines_of_a_run (clock : nat -> string) (calls : list Call) :
  let w := deliver clock calls (created clock) in
  let total :=
    1 + list_sum (map fixedLines calls)
    + (quota 5 (occurrences isDoCheck calls)
       + quota 3 (occurrences isAfterContentChecked calls)
       + quota 3 (occurrences isAfterViewChecked calls)) in
  List.length (transcript w) = total
  /\ List.length (logs (this w)) = Nat.min 50 total.
Proof.
  intros w total.
  assert (Ht : List.length (transcript w) = total).
  { unfold w, total. clear w total.
    induction calls as [ | c calls IH] using rev_ind; [reflexivity | ].
    rewrite deliver_snoc, transcript_dispatch, length_app, length_stamped.
    rewrite IH, map_app, list_sum_app.
    change (list_sum (map fixedLines [c])) with (fixedLines c + 0).
    pose proof (length_messagesOf_reachable clock calls c) as H.
    cbn zeta in H. lia. }
  split; [exact Ht | ].
  rewrite (consistent_reachable clock calls : consistent w).
  now rewrite length_lastn, Ht.
Qed.

(** *** The clock only stamps *)

Lemma sameFields_spec (t1 t2 : Component) :
  sameFields t1 t2 <->
  name t1 = name t2 /\ counter t1 = counter t2
  /\ checkCount t1 = checkCount t2
  /\ contentCheckCount t1 = contentCheckCount t2
  /\ viewCheckCount t1 = viewCheckCount t2.
Proof.
  unfold sameFields, set_logs. destruct t1, t2. cbn. split.
  - intros H. injection H as -> -> -> -> ->. repeat split.
  - intros (-> & -> & -> & -> & ->). reflexivity.
Qed.

Lemma sameFields_messagesOf (c : Call) (w1 w2 : World) :
  sameFields (this w1) (this w2) ->
  messagesOf c w1 = messagesOf c w2
  /\ sameFields (this (bumped c w1)) (this (bumped c w2)).
Proof.
  intros H. pose proof H as H'.
  apply sameFields_spec in H'. destruct H' as (Hn & Hc & H1 & H2 & H3).
  split.
  - destruct c as [[changes | | | | | | | ] | ]; cbn [messagesOf];
      now rewrite ?H1, ?H2, ?H3, ?Hc.
  - apply sameFields_spec.
    destruct c as [[changes | | | | | | | ] | ]; cbn;
      rewrite ?H1, ?H2, ?H3, ?Hc; repeat split; assumption.
Qed.

Lemma sameFields_dispatch (clock1 clock2 : nat -> string) (c : Call)
    (w1 w2 : World) :
  sameFields (this w1) (this w2) ->
  sameFields (this (after (dispatch clock1 c w1)))
             (this (after (dispatch clock2 c w2))).
Proof.
  intros H. destruct (sameFields_messagesOf c w1 w2 H) as [_ Hb].
  unfold sameFields in *.
  rewrite (this_dispatch clock1 c w1), (this_dispatch clock2 c w2).
  exact Hb.
Qed.

Lemma messages_deliver (clock1 clock2 : nat -> string) (calls : list Call)
    (w1 w2 : World) :
  sameFields (this w1) (this w2) ->
  exists messages : list string,
    transcript (deliver clock1 calls w1)
    = transcript w1 ++ stamped clock1 (clockReads w1) messages
    /\ transcript (deliver clock2 calls w2)
       = transcript w2 ++ stamped clock2 (clockReads w2) messages.
Proof.
  revert w1 w2. induction calls as [ | c calls IH]; intros w1 w2 H.
  - exists []. cbn. now rewrite !app_nil_r.
  - cbn [deliver fold_left].
    fold (deliver clock1 calls (after (dispatch clock1 c w1))).
    fold (deliver clock2 calls (after (dispatch clock2 c w2))).
    destruct (IH _ _ (sameFields_dispatch clock1 clock2 c w1 w2 H))
      as [ms [H1 H2]].
    destruct (sameFields_messagesOf c w1 w2 H) as [Hm _].
    exists (messagesOf c w1 ++ ms).
    rewrite H1, H2, !transcript_dispatch, !clockReads_dispatch, !stamped_app.
    rewrite <- Hm. now rewrite <- !app_assoc.
Qed.

(** X8.  The wall clock decides the timestamps and nothing else: under
    two clocks the same calls append the same messages, and the k-th line
    appended (counting from 0, the constructor's line) is stamped with the
    k-th reading of the clock. *)
Theorem clock_only_stamps (clock1 clock2 : nat -> string) (calls : list Call) :
  exists messages : list string,
    transcript (deliver clock1 calls (created clock1))
    = stamped clock1 0 ("#1. Constructor: Component instance created" :: messages)
    /\ transcript (deliver clock2 calls (created clock2))
       = stamped clock2 0 ("#1. Constructor: Component instance created" :: messages).
Proof.
  destruct (messages_deliver clock1 clock2 calls
              (created clock1) (created clock2) eq_refl) as [ms [H1 H2]].
  exists ms. now rewrite H1, H2.
Qed.

(** * The parent component *)

Lemma toggle_iter (n : nat) (p : Parent.ParentComponent) (out : list string) :
  Nat.iter n Parent.toggleComponent (p, out)
  = (Parent.mkParentComponent (Parent.componentName p)
       (xorb (Nat.odd n) (Parent.showComponent p)),
     out ++ map (fun k =>
                   if xorb (Nat.odd k) (Parent.showComponent p)
                   then "Component created" else "Component destroyed")
                (seq 1 n)).
Proof.
  induction n as [ | n IH].
  - cbn. rewrite app_nil_r. now destruct p.
  - change (Nat.iter (S n) Parent.toggleComponent (p, out))
      with (Parent.toggleComponent (Nat.iter n Parent.toggleComponent (p, out))).
    rewrite IH. unfold Parent.toggleComponent.
    cbn [fst snd Parent.componentName Parent.showComponent].
    rewrite seq_S, map_app, app_assoc. cbn [map Nat.add].
    rewrite Nat.odd_succ, <- Nat.negb_odd.
    now destruct (Nat.odd n), (Parent.showComponent p).
Qed.

(** X9.  After any number of calls of [toggleComponent] the component is
    shown exactly when an even number of toggles has been applied to a
    shown component or an odd number to a hidden one; [componentName] is
    unchanged; each call has written one console line, and that line says
    "created" exactly when the call left the component shown.  In
    particular two calls in a row restore the state. *)
Theorem toggleComponent_parity (n : nat) (p : Parent.ParentComponent)
    (out : list string) :
  let s := Nat.iter n Parent.toggleComponent (p, out) in
  Parent.componentName (fst s) = Parent.componentName p
  /\ Parent.showComponent (fst s)
     = (if Nat.even n then Parent.showComponent p
        else negb (Parent.showComponent p))
  /\ snd s
     = out ++ map (fun k =>
                     if Parent.showComponent
                          (fst (Nat.iter k Parent.toggleComponent (p, out)))
                     then "Component created" else "Component destroyed")
                  (seq 1 n)
  /\ fst (Parent.toggleComponent (Parent.toggleComponent s)) = fst s.
Proof.
  intros s. unfold s. rewrite toggle_iter. cbn [fst snd Parent.componentName Parent.showComponent].
  split; [reflexivity | ]. split; [ | split].
  - rewrite <- Nat.negb_even.
    now destruct (Nat.even n), (Parent.showComponent p).
  - f_equal. apply map_ext. intros k. now rewrite toggle_iter.
  - unfold Parent.toggleComponent. cbn. now rewrite negb_involutive.
Qed.

(** * The two versions of the class *)

Section TwoVersions.

Variable clock : nat -> string.

Lemma Forall2_truncate (l1 l2 : list string) :
  Forall2 (sameStamp clock) l1 l2 ->
  Forall2 (sameStamp clock) (truncate l1) (truncate l2).
Proof.
  intros H. unfold truncate. rewrite <- (Forall2_length H).
  destruct (50 <? List.length l1)%nat; [ | exact H].
  destruct H; [constructor | assumption].
Qed.

Lemma alike_recorded (m1 m2 : string) (w u : World) :
  alike clock w u ->
  alike clock (recorded (entry clock (clockReads w) m1) w)
              (recorded (entry clock (clockReads u) m2) u).
Proof.
  intros (Hf & Hl & Hc & Hr). unfold alike, recorded.
  cbn [this console clockReads logs set_logs].
  split; [exact Hf | ]. split; [ | split].
  - apply Forall2_truncate, Forall2_app; [exact Hl | ].
    constructor; [ | constructor].
    exists (clockReads w), m1, m2. now rewrite Hr.
  - rewrite !length_app, Hc. reflexivity.
  - now rewrite Hr.
Qed.

Lemma alike_addLog (m1 m2 : string) (w u : World) :
  alike clock w u ->
  alikeOutcomes clock (addLog clock m1 w) (addLog clock m2 u).
Proof.
  intros H. rewrite !addLog_eq. split; [reflexivity | ].
  now apply alike_recorded.
Qed.

Lemma alike_withThis (f : Component -> Component) (w u : World) :
  (forall t1 t2, sameFields t1 t2 ->
     sameFields (f t1) (f t2) /\ logs (f t1) = logs t1 /\ logs (f t2) = logs t2) ->
  alike clock w u ->
  alike clock (withThis f w) (withThis f u).
Proof.
  intros Hf (Hs & Hl & Hc & Hr). unfold alike, withThis.
  cbn [this console clockReads].
  destruct (Hf _ _ Hs) as (Hs' & -> & ->). repeat split; assumption.
Qed.

Lemma alike_sampled (field : Component -> nat)
    (set : nat -> Component -> Component) (first : nat)
    (label1 label2 : string) (w u : World) :
  (forall t1 t2, sameFields t1 t2 -> field t1 = field t2) ->
  (forall t1 t2, sameFields t1 t2 ->
     sameFields (set (field t1 + 1) t1) (set (field t2 + 1) t2)
     /\ logs (set (field t1 + 1) t1) = logs t1
     /\ logs (set (field t2 + 1) t2) = logs t2) ->
  (forall n t, field (set n t) = n) ->
  alike clock w u ->
  alikeOutcomes clock
    ((update (fun c => set (field c + 1) c) ;;
      n <- read field ;;
      if ((n <=? first) || (n mod 10 =? 0))%nat
      then addLog clock (label1 ^^ JS.natToString n)
      else ret tt) w)
    ((update (fun c => set (field c + 1) c) ;;
      n <- read field ;;
      if ((n <=? first) || (n mod 10 =? 0))%nat
      then addLog clock (label2 ^^ JS.natToString n)
      else ret tt) u).
Proof.
  intros Hfield Hset Hget H.
  unfold bind, update, read. cbn [this].
  rewrite !Hget.
  assert (H' : alike clock
                 (withThis (fun c => set (field c + 1) c) w)
                 (withThis (fun c => set (field c + 1) c) u)).
  { apply alike_withThis; [ | exact H]. intros t1 t2 Ht. now apply Hset. }
  unfold withThis in H'. cbn beta in H'.
  rewrite (Hfield _ _ (proj1 H)) in *.
  destruct ((field (this u) + 1 <=? first) || ((field (this u) + 1) mod 10 =? 0))%nat.
  - now apply alike_addLog.
  - split; [reflexivity | exact H'].
Qed.

Lemma alike_forIn (changes : SimpleChanges) (w u : World) :
  alike clock w u ->
  alikeOutcomes clock
    (forIn changes (fun propName change =>
       current <- evaluate (JS.stringify (currentValue change)) ;;
       previous <- evaluate (JS.stringify (previousValue change)) ;;
       addLog clock ("#2. ngOnChanges: - " ^^ propName ^^ ": "
               ^^ JS.interpolate previous ^^ " → " ^^ JS.interpolate current)) w)
    (forIn changes (fun propName change =>
       current <- evaluate (JS.stringify (currentValue change)) ;;
       previous <- evaluate (JS.stringify (previousValue change)) ;;
       addLog clock ("  - " ^^ propName ^^ ": "
               ^^ JS.interpolate previous ^^ " → " ^^ JS.interpolate current)) u).
Proof.
  revert w u. induction changes as [ | [propName change] rest IH]; intros w u H.
  - split; [reflexivity | exact H].
  - cbn [forIn]. unfold bind at 1 2 5 6. unfold bind, evaluate.
    destruct (JS.stringify (currentValue change)) as [current | e1];
      [ | split; [reflexivity | exact H]].
    destruct (JS.stringify (previousValue change)) as [previous | e2];
      [ | split; [reflexivity | exact H]].
    rewrite !addLog_eq. apply IH. now apply alike_recorded.
Qed.

Lemma alike_dispatch (c : Call) (w u : World) :
  alike clock w u ->
  alikeOutcomes clock (dispatch clock c w) (Unnumbered.dispatch clock c u).
Proof.
  intros H.
  destruct c as [[changes | | | | | | | ] | ];
    unfold dispatch, Unnumbered.dispatch.
  - unfold ngOnChanges, Unnumbered.ngOnChanges. unfold bind at 1 4.
    rewrite !addLog_eq. apply alike_forIn. now apply alike_recorded.
  - now apply alike_addLog.
  - apply (alike_sampled checkCount set_checkCount 5); try exact H.
    + intros t1 t2 Ht. now apply sameFields_spec in Ht.
    + intros t1 t2 Ht. rewrite !sameFields_spec in *. cbn.
      destruct Ht as (-> & -> & -> & -> & ->). repeat split.
    + reflexivity.
  - now apply alike_addLog.
  - apply (alike_sampled contentCheckCount set_contentCheckCount 3); try exact H.
    + intros t1 t2 Ht. now apply sameFields_spec in Ht.
    + intros t1 t2 Ht. rewrite !sameFields_spec in *. cbn.
      destruct Ht as (-> & -> & -> & -> & ->). repeat split.
    + reflexivity.
  - now apply alike_addLog.
  - apply (alike_sampled viewCheckCount set_viewCheckCount 3); try exact H.
    + intros t1 t2 Ht. now apply sameFields_spec in Ht.
    + intros t1 t2 Ht. rewrite !sameFields_spec in *. cbn.
      destruct Ht as (-> & -> & -> & -> & ->). repeat split.
    + reflexivity.
  - unfold ngOnDestroy, Unnumbered.ngOnDestroy, bind, console_log.
    rewrite !addLog_eq.
    pose proof (alike_recorded "#9. ngOnDestroy: Component is being destroyed"
                  "ngOnDestroy: Component is being destroyed" w u H)
      as (Hf & Hl & Hc & Hr).
    split; [reflexivity | ]. unfold alike. cbn [after this console clockReads] in *.
    repeat split; try assumption.
    rewrite !length_app. cbn [List.length] in *. now rewrite Hc.
  - unfold incrementCounter, Unnumbered.incrementCounter, bind, update, read.
    cbn [this counter set_counter].
    pose proof (proj1 (sameFields_spec _ _) (proj1 H)) as (_ & Hcounter & _).
    assert (H' : alike clock
                   (withThis (fun c => set_counter (counter c + 1)%Z c) w)
                   (withThis (fun c => set_counter (counter c + 1)%Z c) u)).
    { apply alike_withThis; [ | exact H].
      intros t1 t2 Ht. rewrite !sameFields_spec in *. cbn.
      destruct Ht as (-> & -> & -> & -> & ->). repeat split. }
    unfold withThis in H'. cbn beta in H'. rewrite Hcounter in *.
    now apply alike_addLog.
Qed.

Lemma alike_deliver (calls : list Call) (w u : World) :
  alike clock w u ->
  alike clock (deliver clock calls w) (Unnumbered.deliver clock calls u).
Proof.
  revert w u. induction calls as [ | c calls IH]; intros w u H; [exact H | ].
  cbn [deliver Unnumbered.deliver fold_left]. apply IH.
  now apply alike_dispatch.
Qed.

Lemma alike_created :
  alike clock (created clock) (Unnumbered.created clock).
Proof.
  unfold created, Unnumbered.created, constructor, Unnumbered.constructor,
    bind, update.
  rewrite !addLog_eq. cbn [after]. apply alike_recorded.
  repeat split; constructor.
Qed.

End TwoVersions.

(** X10.  The numbered and the unnumbered version of the class differ in
    the wording of their messages only.  After the same calls the two
    instances agree on [name], [counter] and the three occurrence
    counters, their arrays [logs] have the same length and carry the same
    timestamps line by line, as many lines have been written on the
    console and as many reads made of the clock; and a further call throws
    in one version exactly when it throws in the other. *)
Theorem versions_differ_in_wording_only
    (clock : nat -> string) (calls : list Call) :
  let w := deliver clock calls (created clock) in
  let u := Unnumbered.deliver clock calls (Unnumbered.created clock) in
  (name (this w) = name (this u)
   /\ counter (this w) = counter (this u)
   /\ checkCount (this w) = checkCount (this u)
   /\ contentCheckCount (this w) = contentCheckCount (this u)
   /\ viewCheckCount (this w) = viewCheckCount (this u))
  /\ Forall2 (sameStamp clock) (logs (this w)) (logs (this u))
  /\ List.length (logs (this w)) = List.length (logs (this u))
  /\ List.length (console w) = List.length (console u)
  /\ clockReads w = clockReads u
  /\ forall c : Call,
       raises (dispatch clock c w) = raises (Unnumbered.dispatch clock c u).
Proof.
  intros w u.
  assert (H : alike clock w u) by apply alike_deliver, alike_created.
  pose proof H as (Hf & Hl & Hc & Hr).
  split; [now apply sameFields_spec | ].
  split; [exact Hl | ]. split; [exact (Forall2_length Hl) | ].
  split; [exact Hc | ]. split; [exact Hr | ].
  intros c. apply (alike_dispatch clock c w u H).
Qed.
